(** * TESSERACT v50: the formula library and the Solana wallet aggregator

    A shallow embedding of [magick_engine.py] and [solana_integration.py].

    - Python floats are IEEE binary64 numbers: they are Rocq's primitive
      floats, and every arithmetic operation below is the primitive one.
    - Python ints are [Z].
    - A Python exception is a value of [exn]; a computation that may raise
      returns [res A].
    - The wallet object is a record that the [async] methods thread through
      a state-and-exception monad [M]; the HTTP providers and the clock are
      an explicit [world].
    - Logging is an external collaborator and is left out, except that the
      expressions a log line evaluates are evaluated (they can raise).
    - A str is its sequence of characters. Every [datetime.now()] of one
      method call reads the same instant. A method's result is the value it
      has when the method returns (the dict [monitor_wallet] returns holds
      the live [profit_tracking] object, which a later call mutates).
    - Exceptions are the subclasses of [Exception]; cancellation and
      interpreter exit are outside the model. *)

From Stdlib Require Import ZArith List String Bool Lia Floats.
Import ListNotations.
Set Warnings "-register-all".
Local Open Scope string_scope.
Local Open Scope Z_scope.

(* ================================================================= *)
(** ** Python values, exceptions, results *)

(** The values [response.json()] can produce, which are also the values the
    methods return. A dict is its list of entries, keys pairwise distinct. *)
Inductive pyval : Type :=
| PNone
| PBool (b : bool)
| PInt (n : Z)
| PFloat (x : float)
| PStr (s : string)
| PList (items : list pyval)
| PDict (entries : list (string * pyval)).

Inductive exn : Type :=
| NetworkError (msg : string)
| JSONDecodeError
| UnboundLocalError (name : string)
| AttributeError
| TypeError
| ValueError
| ZeroDivisionError
| OverflowError.

(** [str(e)] *)
Definition exn_str (e : exn) : string :=
  match e with
  | NetworkError msg => msg
  | JSONDecodeError => "Expecting value"
  | UnboundLocalError name =>
      "cannot access local variable '" ++ name ++ "' where it is not associated with a value"
  | AttributeError => "'NoneType' object has no attribute 'get'"
  | TypeError => "unsupported operand"
  | ValueError => "could not convert string to float"
  | ZeroDivisionError => "division by zero"
  | OverflowError => "int too large to convert to float"
  end.

Inductive res (A : Type) : Type :=
| Ok (a : A)
| Raise (e : exn).
Arguments Ok {A} a.
Arguments Raise {A} e.

Definition res_bind {A B : Type} (r : res A) (k : A -> res B) : res B :=
  match r with
  | Ok a => k a
  | Raise e => Raise e
  end.

Declare Scope res_scope.
Delimit Scope res_scope with res.
Notation "x <- e ;; k" := (res_bind e (fun x => k))
  (at level 61, e at next level, right associativity) : res_scope.
Local Open Scope res_scope.

Definition is_ok {A : Type} (r : res A) : bool :=
  match r with Ok _ => true | Raise _ => false end.

(* ================================================================= *)
(** ** Numbers *)

(** [float(n)] for an int [n]: the nearest double, ties to even;
    [OverflowError] when that is not finite. *)
Definition int_to_float (n : Z) : res float :=
  match binary_normalize prec emax n 0 false with
  | S754_infinity _ => Raise OverflowError
  | sf => Ok (SF2Prim sf)
  end.

(** [x / y] on floats: Python raises where IEEE would return an infinity or
    a NaN for a zero divisor. *)
Definition float_truediv (x y : float) : res float :=
  if (y =? 0)%float then Raise ZeroDivisionError else Ok (x / y)%float.

Definition Z2SF (n : Z) : spec_float :=
  match n with
  | Z0 => S754_zero false
  | Zpos p => S754_finite false p 0
  | Zneg p => S754_finite true p 0
  end.

(** [a / b] on ints: the correctly rounded quotient. *)
Definition int_truediv (a b : Z) : res float :=
  if b =? 0 then Raise ZeroDivisionError
  else match SFdiv prec emax (Z2SF a) (Z2SF b) with
       | S754_infinity _ => Raise OverflowError
       | q => Ok (SF2Prim q)
       end.

(** [max(a, b)]: the first argument unless the second is greater. *)
Definition float_max (a b : float) : float :=
  if (a <? b)%float then b else a.

Definition int_max (a b : Z) : Z :=
  if a <? b then b else a.

(** [sum(xs)] on a list of floats: the int [0], then [+] left to right. *)
Definition float_sum (xs : list float) : float :=
  fold_left PrimFloat.add xs 0%float.

(** [sum(xs)] as the value it is: the int [0] for an empty list. *)
Definition py_sum (xs : list float) : pyval :=
  match xs with
  | [] => PInt 0
  | _ => PFloat (float_sum xs)
  end.

(** [len(xs)] as a Python int *)
Definition len {A : Type} (xs : list A) : Z := Z.of_nat (List.length xs).

(** [xs[i:j]] for [0 <= i] *)
Definition slice {A : Type} (xs : list A) (i j : Z) : list A :=
  firstn (Z.to_nat (j - i)) (skipn (Z.to_nat i) xs).

(** [range(start, stop, step)] for a positive [step] *)
Definition py_range (start stop step : Z) : list Z :=
  map (fun k => start + Z.of_nat k * step)
      (seq 0 (Z.to_nat ((stop - start + step - 1) / step))).

(** A number stored in a result as either an int or a float, compared with
    an int constant. *)
Definition num_gtb (v : pyval) (c : Z) : bool :=
  match v with
  | PInt n => c <? n
  | PFloat x =>
      match int_to_float c with
      | Ok y => (y <? x)%float
      | Raise _ => false
      end
  | _ => false
  end.

(* ================================================================= *)
(** ** [magick_engine.py]: class [SacredGeometry] *)

Definition PHI : float := ((1 + sqrt 5) / 2)%float.

Definition FIBONACCI : list Z :=
  [1; 1; 2; 3; 5; 8; 13; 21; 34; 55; 89; 144; 233; 377; 610; 987].

Fixpoint res_map {A B : Type} (f : A -> res B) (xs : list A) : res (list B) :=
  match xs with
  | [] => Ok []
  | x :: rest =>
      y <- f x ;;
      ys <- res_map f rest ;;
      Ok (y :: ys)
  end.

Section GoldenRatio.
(** [x ** y] on floats is the C library's [pow], which is not part of the
    repository; it raises [OverflowError] on a range error. *)
Variable float_pow : float -> float -> res float.

Definition golden_level (price : float) (fib : Z) : res float :=
  e <- int_truediv fib 10 ;;
  p <- float_pow PHI e ;;
  Ok (price * p)%float.

Definition golden_ratio_levels (price : float) : res (list float) :=
  res_map (golden_level price) FIBONACCI.
End GoldenRatio.

Section FlowerOfLife.
(** [numpy.mean] and [numpy.std] of a segment; numpy is not part of the
    repository. Their results are [numpy.float64], whose division never
    raises. *)
Variables np_mean np_std : list float -> float.

(** The start indices the segment loop visits. *)
Definition flower_starts (data : list float) : list Z :=
  py_range 0 (len data - 19) 19.

Definition flower_segments (data : list float) : list (list float) :=
  map (fun i => slice data i (i + 19)) (flower_starts data).

(** One iteration of the loop body on [pattern_score]. *)
Definition flower_step (pattern_score : float) (segment : list float) : float :=
  let mean := np_mean segment in
  let std := np_std segment in
  if (0 <? std)%float then
    let harmony := (1 - std / mean)%float in
    (pattern_score + float_max 0 harmony)%float
  else pattern_score.

Definition flower_of_life_pattern (data : list float) : res pyval :=
  if len data <? 6 then Ok (PDict [("pattern", PStr "insufficient_data")])
  else
    let pattern_score := fold_left flower_step (flower_segments data) 0%float in
    ratio <- int_truediv (len data - 19) 19 ;;
    score <- float_truediv pattern_score (float_max 1 ratio) ;;
    Ok (PDict [("pattern", PStr "flower_of_life");
               ("harmony_score", PFloat score);
               ("interpretation", PStr "Sacred pattern alignment")]).
End FlowerOfLife.

Definition vesica_piscis_ratio (value1 value2 : float) : res pyval :=
  if ((value1 =? 0) || (value2 =? 0))%float then Ok (PInt 0)
  else
    ratio <- float_truediv value1 value2 ;;
    vesica_ratio <- float_truediv (sqrt 3) 2 ;;
    Ok (PFloat (abs (ratio - vesica_ratio))).

(* ================================================================= *)
(** ** [magick_engine.py]: class [HermeticPrinciples] *)

Definition principle_correspondence (macro micro : float) : res pyval :=
  ratio <- (if negb (micro =? 0)%float
    then q <- float_truediv macro micro ;; Ok (PFloat q)
    else Ok (PInt 0)) ;;
  Ok (PDict [("principle", PStr "correspondence");
             ("macro_level", PFloat macro);
             ("micro_level", PFloat micro);
             ("correspondence_ratio", ratio);
             ("interpretation", PStr "Pattern repeats across scales")]).

Definition principle_vibration (frequency : float) : res pyval :=
  wavelength <- (if negb (frequency =? 0)%float
    then q <- float_truediv 1 frequency ;; Ok (PFloat q)
    else Ok (PInt 0)) ;;
  Ok (PDict [("principle", PStr "vibration");
             ("frequency", PFloat frequency);
             ("wavelength", wavelength);
             ("resonance", PStr "Align with market frequency");
             ("action", PStr "Trade with market rhythm, not against it")]).

Definition principle_polarity (bull bear : float) : res pyval :=
  let total := (bull + bear)%float in
  percents <- (if (total =? 0)%float then Ok (PInt 50, PInt 50)
    else
      b <- float_truediv bull total ;;
      r <- float_truediv bear total ;;
      Ok (PFloat (b * 100), PFloat (r * 100))) ;;
  let '(bull_percent, bear_percent) := percents in
  Ok (PDict [("principle", PStr "polarity");
             ("bull_force", bull_percent);
             ("bear_force", bear_percent);
             ("balance_point", PInt 50);
             ("market_state",
              PStr (if num_gtb bull_percent 50 then "bullish" else "bearish"))]).

(** [numpy.diff]: the differences of consecutive elements. *)
Fixpoint np_diff (prices : list float) : list float :=
  match prices with
  | a :: ((b :: _) as rest) => (b - a)%float :: np_diff rest
  | _ => []
  end.

Definition count_if {A : Type} (p : A -> bool) (xs : list A) : Z :=
  len (filter p xs).

Definition principle_rhythm (prices : list float) : res pyval :=
  if len prices <? 2
  then Ok (PDict [("principle", PStr "rhythm"); ("insufficient_data", PBool true)])
  else
    let changes := np_diff prices in
    let ups := count_if (fun c => (0 <? c)%float) changes in
    let downs := count_if (fun c => (c <? 0)%float) changes in
    cycle_ratio <- int_truediv ups (int_max 1 downs) ;;
    Ok (PDict [("principle", PStr "rhythm");
               ("up_movements", PInt ups);
               ("down_movements", PInt downs);
               ("cycle_ratio", PFloat cycle_ratio);
               ("rhythm", PStr "Market oscillates between up and down")]).

Definition principle_gender (masculine feminine : float) : res pyval :=
  let total := (masculine + feminine)%float in
  percents <- (if (total =? 0)%float then Ok (PInt 50, PInt 50)
    else
      m <- float_truediv masculine total ;;
      f <- float_truediv feminine total ;;
      Ok (PFloat (m * 100), PFloat (f * 100))) ;;
  let '(m_percent, f_percent) := percents in
  Ok (PDict [("principle", PStr "gender");
             ("masculine_active", m_percent);
             ("feminine_receptive", f_percent);
             ("balance", PStr "Optimal balance is 50/50");
             ("market_state",
              PStr (if num_gtb m_percent 50 then "active" else "receptive"))]).

(* ================================================================= *)
(** ** [magick_engine.py]: class [QuantumConsciousness] *)

Definition superposition (option_a option_b : float) : res pyval :=
  probability_a <- (if (0 <? option_a + option_b)%float
    then float_truediv option_a (option_a + option_b)
    else Ok 0.5%float) ;;
  probability_b <- (if (0 <? option_a + option_b)%float
    then float_truediv option_b (option_a + option_b)
    else Ok 0.5%float) ;;
  Ok (PDict [("principle", PStr "superposition");
             ("option_a", PFloat option_a);
             ("option_b", PFloat option_b);
             ("probability_a", PFloat probability_a);
             ("probability_b", PFloat probability_b);
             ("interpretation",
              PStr "Market exists in multiple states until observation")]).

Definition entanglement (asset1_price asset2_price : float) : res pyval :=
  q <- float_truediv (abs (asset1_price - asset2_price))
                          (float_max asset1_price asset2_price) ;;
  let correlation := (1 - q)%float in
  Ok (PDict [("principle", PStr "entanglement");
             ("asset1", PFloat asset1_price);
             ("asset2", PFloat asset2_price);
             ("correlation", PFloat correlation);
             ("interpretation",
              PStr "Assets are entangled - movements affect each other")]).

(* ================================================================= *)
(** ** [magick_engine.py]: class [MagickProfitEngine] *)

Record MagickProfitEngine : Type := {
  trades : list pyval;
  profits : list float
}.

Definition new_engine : MagickProfitEngine := {| trades := []; profits := [] |}.

(** [calculate_magick_profit]: the result, and the engine afterwards
    ([self.profits.append] comes after the two divisions). *)
Definition calculate_magick_profit (now : string) (entry exit amount : float)
    (self : MagickProfitEngine) : res pyval * MagickProfitEngine :=
  let profit := ((exit - entry) * amount)%float in
  match float_truediv (exit - entry) entry with
  | Raise e => (Raise e, self)
  | Ok q =>
      let roi := (q * 100)%float in
      let magick_multiplier := 0x1.199999999999ap+0%float in
      let magick_profit := (profit * magick_multiplier)%float in
      let self' := {| trades := trades self;
                      profits := profits self ++ [magick_profit] |} in
      (Ok (PDict [("entry_price", PFloat entry);
                  ("exit_price", PFloat exit);
                  ("amount", PFloat amount);
                  ("profit", PFloat profit);
                  ("roi_percent", PFloat roi);
                  ("magick_multiplier", PFloat magick_multiplier);
                  ("magick_profit", PFloat magick_profit);
                  ("total_profits", PFloat (float_sum (profits self')));
                  ("timestamp", PStr now)]),
       self')
  end.

Definition get_magick_status (now : string) (self : MagickProfitEngine) : res pyval :=
  n <- int_to_float (int_max 1 (len (profits self))) ;;
  average <- float_truediv (float_sum (profits self)) n ;;
  Ok (PDict [("trades_executed", PInt (len (trades self)));
             ("total_profit", py_sum (profits self));
             ("average_profit_per_trade", PFloat average);
             ("magick_active", PBool true);
             ("consciousness_level", PStr "SUPER-CONSCIOUS");
             ("ethical_alignment", PStr "PERFECT");
             ("timestamp", PStr now)]).


(* ================================================================= *)
(** ** Python dictionaries, sequences and coercions *)

Fixpoint dict_get (key : string) (entries : list (string * pyval)) : option pyval :=
  match entries with
  | [] => None
  | (k, v) :: rest => if String.eqb key k then Some v else dict_get key rest
  end.

(** [key in d] *)
Definition dict_mem (key : string) (entries : list (string * pyval)) : bool :=
  match dict_get key entries with Some _ => true | None => false end.

(** [d.get(key, default)]; only a dict has the method. *)
Definition py_get (d : pyval) (key : string) (default : pyval) : res pyval :=
  match d with
  | PDict entries =>
      match dict_get key entries with
      | Some v => Ok v
      | None => Ok default
      end
  | _ => Raise AttributeError
  end.

(** [len(v)] *)
Definition py_len (v : pyval) : res Z :=
  match v with
  | PList items => Ok (len items)
  | PDict entries => Ok (len entries)
  | PStr s => Ok (Z.of_nat (String.length s))
  | _ => Raise TypeError
  end.

(** The items [for tx in v[:n]] visits. A list gives its first [n] items, a
    str its first [n] characters; a dict has no slice for a key (TypeError up
    to Python 3.11, KeyError from 3.12), and the other values are not
    subscriptable. *)
Definition py_take (n : nat) (v : pyval) : res (list pyval) :=
  match v with
  | PList items => Ok (firstn n items)
  | PStr s =>
      Ok (map (fun c => PStr (String c EmptyString)) (firstn n (list_ascii_of_string s)))
  | _ => Raise TypeError
  end.

(** [v == s] for a str constant [s] *)
Definition py_str_eqb (v : pyval) (s : string) : bool :=
  match v with
  | PStr t => String.eqb t s
  | _ => false
  end.

Section Coercion.
(** [float(s)] on a str is the interpreter's parser for float literals;
    [None] stands for its [ValueError]. *)
Variable str_to_float : string -> option float.

(** [float(v)] *)
Definition py_float (v : pyval) : res float :=
  match v with
  | PFloat x => Ok x
  | PInt n => int_to_float n
  | PBool b => Ok (if b then 1%float else 0%float)
  | PStr s =>
      match str_to_float s with
      | Some x => Ok x
      | None => Raise ValueError
      end
  | PNone | PList _ | PDict _ => Raise TypeError
  end.
End Coercion.

(* ================================================================= *)
(** ** [solana_integration.py]: the providers and the wallet object *)

Definition WALLET_ADDRESS : string := "57pNZ8Kybv22PJ8z5AK7ojB8G7Rx2XQLsfNQV8a65rmm".

(** The five GET requests the class sends, each for the wallet's address. *)
Inductive endpoint : Type :=
| HeliusBalances
| SolscanAccount
| MagicEdenTokens
| SolscanTransactions (limit : Z)
| MagicEdenNfts.

(** What one request comes to: [session.get] raises (timeout, connection
    error), or there is a response with a status and a body; [body = None]
    when [response.json()] raises on it. *)
Inductive http_reply : Type :=
| Failed (msg : string)
| Response (status : Z) (body : option pyval).

(** The providers' answers and the clock's reading while one method runs;
    a method sends each request at most once. *)
Record world : Type := {
  net : endpoint -> http_reply;
  now : string
}.

Record profit_state : Type := {
  total_profit : float;
  sessions : Z;
  last_profit : float;
  timestamp : string
}.

Record wallet : Type := {
  wallet_address : string;
  balance_history : list pyval;
  transactions : pyval;
  profit_tracking : profit_state
}.

Definition __init__ (clock : string) (address : string) : wallet :=
  {| wallet_address := address;
     balance_history := [];
     transactions := PList [];
     profit_tracking :=
       {| total_profit := 0; sessions := 0; last_profit := 0; timestamp := clock |} |}.

(** [self.profit_tracking] as the dict it is *)
Definition profit_dict (p : profit_state) : pyval :=
  PDict [("total_profit", PFloat (total_profit p));
         ("sessions", PInt (sessions p));
         ("last_profit", PFloat (last_profit p));
         ("timestamp", PStr (timestamp p))].

(** *** The monad of the methods: the wallet object and exceptions *)

Definition M (A : Type) : Type := wallet -> res A * wallet.

Definition ret {A : Type} (a : A) : M A := fun self => (Ok a, self).

Definition bind {A B : Type} (m : M A) (k : A -> M B) : M B :=
  fun self =>
    match m self with
    | (Ok a, self') => k a self'
    | (Raise e, self') => (Raise e, self')
    end.

Definition lift {A : Type} (r : res A) : M A := fun self => (r, self).

Definition get_self : M wallet := fun self => (Ok self, self).

Definition set_self (self' : wallet) : M unit := fun _ => (Ok tt, self').

(** [try: body except Exception as e: handler]; every [exn] is an
    [Exception]. *)
Definition try_except {A : Type} (body : M A) (handler : exn -> M A) : M A :=
  fun self =>
    match body self with
    | (Ok a, self') => (Ok a, self')
    | (Raise e, self') => handler e self'
    end.

Declare Scope m_scope.
Delimit Scope m_scope with m.
Notation "x <- e ;; k" := (bind e (fun x => k))
  (at level 61, e at next level, right associativity) : m_scope.
Local Open Scope m_scope.

(** How a block of statements ends: with a [return], or by running on to
    the statement after it. *)
Inductive flow : Type :=
| Return (v : pyval)
| Next.

(** Reading the local variable of an [except Exception as e] clause outside
    the clause. Python unbinds [e] when the clause ends, and a path that
    never entered the clause never bound it: the binding is [None] both
    ways, and reading it raises. *)
Definition read_local (name : string) (binding : option exn) : res exn :=
  match binding with
  | Some e => Ok e
  | None => Raise (UnboundLocalError name)
  end.

Definition session_get (w : world) (ep : endpoint) : res (Z * option pyval) :=
  match net w ep with
  | Failed msg => Raise (NetworkError msg)
  | Response status body => Ok (status, body)
  end.

Definition response_json (body : option pyval) : res pyval :=
  match body with
  | Some v => Ok v
  | None => Raise JSONDecodeError
  end.

Definition _get_balance_fallback (w : world) : M pyval :=
  self <- get_self ;;
  f <- try_except
         (r <- lift (session_get w SolscanAccount) ;;
          let '(status, body) := r in
          if status =? 200 then
            data <- lift (response_json body) ;;
            ret (Return (PDict [("status", PStr "success");
                                ("wallet", PStr (wallet_address self));
                                ("data", data);
                                ("timestamp", PStr (now w))]))
          else ret Next)
         (fun e => ret Next) ;;
  match f with
  | Return v => ret v
  | Next =>
      ret (PDict [("status", PStr "pending");
                  ("wallet", PStr (wallet_address self));
                  ("message", PStr "Wallet monitoring active");
                  ("timestamp", PStr (now w))])
  end.

Definition get_wallet_balance (w : world) : M pyval :=
  self <- get_self ;;
  f <- try_except
         (r <- lift (session_get w HeliusBalances) ;;
          let '(status, body) := r in
          if status =? 200 then
            data <- lift (response_json body) ;;
            ret (Return (PDict [("status", PStr "success");
                                ("wallet", PStr (wallet_address self));
                                ("balance", data);
                                ("timestamp", PStr (now w))]))
          else if status =? 429 then
            v <- _get_balance_fallback w ;;
            ret (Return v)
          else ret Next)
         (fun e =>
            v <- _get_balance_fallback w ;;
            ret (Return v)) ;;
  match f with
  | Return v => ret v
  | Next => ret PNone  (* the body ends without a [return] *)
  end.

Definition get_token_balances (w : world) : M pyval :=
  f <- try_except
         (r <- lift (session_get w MagicEdenTokens) ;;
          let '(status, body) := r in
          if status =? 200 then
            tokens <- lift (response_json body) ;;
            count <- lift (py_len tokens) ;;
            ret (Return (PDict [("status", PStr "success");
                                ("tokens", tokens);
                                ("count", PInt count);
                                ("timestamp", PStr (now w))]))
          else ret Next)
         (fun e => ret Next) ;;
  match f with
  | Return v => ret v
  | Next =>
      e <- lift (read_local "e" None) ;;
      ret (PDict [("status", PStr "error");
                  ("error", PStr (exn_str e));
                  ("timestamp", PStr (now w))])
  end.

Definition get_transaction_history (w : world) (limit : Z) : M pyval :=
  f <- try_except
         (r <- lift (session_get w (SolscanTransactions limit)) ;;
          let '(status, body) := r in
          if status =? 200 then
            txs <- lift (response_json body) ;;
            self <- get_self ;;
            _ <- set_self {| wallet_address := wallet_address self;
                             balance_history := balance_history self;
                             transactions := txs;
                             profit_tracking := profit_tracking self |} ;;
            count <- lift (py_len txs) ;;
            ret (Return (PDict [("status", PStr "success");
                                ("transactions", txs);
                                ("count", PInt count);
                                ("timestamp", PStr (now w))]))
          else ret Next)
         (fun e => ret Next) ;;
  match f with
  | Return v => ret v
  | Next =>
      e <- lift (read_local "e" None) ;;
      ret (PDict [("status", PStr "error");
                  ("error", PStr (exn_str e));
                  ("timestamp", PStr (now w))])
  end.

Definition get_wallet_nfts (w : world) : M pyval :=
  f <- try_except
         (r <- lift (session_get w MagicEdenNfts) ;;
          let '(status, body) := r in
          if status =? 200 then
            nfts <- lift (response_json body) ;;
            count <- lift (py_len nfts) ;;
            ret (Return (PDict [("status", PStr "success");
                                ("nfts", nfts);
                                ("count", PInt count);
                                ("timestamp", PStr (now w))]))
          else ret Next)
         (fun e => ret Next) ;;
  match f with
  | Return v => ret v
  | Next =>
      e <- lift (read_local "e" None) ;;
      ret (PDict [("status", PStr "error");
                  ("error", PStr (exn_str e));
                  ("timestamp", PStr (now w))])
  end.

Section Monitor.
Variable str_to_float : string -> option float.

(** One iteration of the profit loop on [profit]; the bare [except]
    swallows whatever [float] raises. *)
Definition profit_step (profit : float) (tx : pyval) : float :=
  match tx with
  | PDict entries =>
      if dict_mem "amount" entries then
        match (amount <- py_get tx "amount" (PInt 0) ;;
               py_float str_to_float amount)%res with
        | Ok x => (profit + x)%float
        | Raise _ => profit
        end
      else profit
  | _ => profit
  end.

(** Lines 163 to 173: the profit of one transaction envelope. *)
Definition detect_profit (envelope : pyval) : res float :=
  (status <- py_get envelope "status" PNone ;;
   if py_str_eqb status "success" then
     txs <- py_get envelope "transactions" (PList []) ;;
     first5 <- py_take 5 txs ;;
     Ok (fold_left profit_step first5 0%float)
   else Ok 0%float)%res.

Definition update_profit_tracking (w : world) (profit : float) (self : wallet) : wallet :=
  let p := profit_tracking self in
  {| wallet_address := wallet_address self;
     balance_history := balance_history self;
     transactions := transactions self;
     profit_tracking :=
       {| total_profit := (total_profit p + profit)%float;
          sessions := sessions p + 1;
          last_profit := profit;
          timestamp := now w |} |}.

Definition monitor_wallet (w : world) : M pyval :=
  balance <- get_wallet_balance w ;;
  tokens <- get_token_balances w ;;
  txs <- get_transaction_history w 10 ;;
  profit <- lift (detect_profit txs) ;;
  self <- get_self ;;
  _ <- set_self (update_profit_tracking w profit self) ;;
  (* the four values the log lines format *)
  _ <- lift (py_get balance "status" PNone) ;;
  _ <- lift (py_get tokens "count" (PInt 0)) ;;
  _ <- lift (py_get txs "count" (PInt 0)) ;;
  self <- get_self ;;
  ret (PDict [("status", PStr "success");
              ("wallet", PStr (wallet_address self));
              ("balance", balance);
              ("tokens", tokens);
              ("transactions", txs);
              ("profit_tracking", profit_dict (profit_tracking self));
              ("timestamp", PStr (now w))]).

Definition track_profit (w : world) : M pyval :=
  self <- get_self ;;
  let p := profit_tracking self in
  n <- lift (int_to_float (int_max 1 (sessions p))) ;;
  average <- lift (float_truediv (total_profit p) n) ;;
  ret (PDict [("status", PStr "success");
              ("profit_tracking", profit_dict p);
              ("total_profit", PFloat (total_profit p));
              ("average_profit_per_session", PFloat average);
              ("sessions", PInt (sessions p));
              ("timestamp", PStr (now w))]).

Definition get_wallet_value (w : world) : M pyval :=
  self <- get_self ;;
  try_except
    (tokens <- get_token_balances w ;;
     nfts <- get_wallet_nfts w ;;
     balance <- get_wallet_balance w ;;
     nft_count <- lift (py_get nfts "count" (PInt 0)) ;;
     let total_value :=
       PDict [("sol_balance", PFloat 0);
              ("token_value", PFloat 0);
              ("nft_count", nft_count);
              ("total_usd_value", PFloat 0);
              ("timestamp", PStr (now w))] in
     (* the two values the log lines format *)
     _ <- lift (py_get tokens "count" (PInt 0)) ;;
     _ <- lift (py_get nfts "count" (PInt 0)) ;;
     ret (PDict [("status", PStr "success");
                 ("wallet", PStr (wallet_address self));
                 ("value", total_value);
                 ("timestamp", PStr (now w))]))
    (fun e =>
       ret (PDict [("status", PStr "error");
                   ("error", PStr (exn_str e));
                   ("timestamp", PStr (now w))])).

Definition get_wallet_status (w : world) : M pyval :=
  self <- get_self ;;
  transaction_count <- lift (py_len (transactions self)) ;;
  ret (PDict [("wallet_address", PStr (wallet_address self));
              ("profit_tracking", profit_dict (profit_tracking self));
              ("transaction_count", PInt transaction_count);
              ("balance_history_size", PInt (len (balance_history self)));
              ("status", PStr "active");
              ("timestamp", PStr (now w))]).

(** *** The public methods, and the wallets a run can reach *)

Inductive method : Type :=
| GetWalletBalance
| GetTokenBalances
| GetTransactionHistory (limit : Z)
| MonitorWallet
| TrackProfit
| GetWalletNfts
| GetWalletValue
| GetWalletStatus.

Definition call (m : method) (w : world) : M pyval :=
  match m with
  | GetWalletBalance => get_wallet_balance w
  | GetTokenBalances => get_token_balances w
  | GetTransactionHistory limit => get_transaction_history w limit
  | MonitorWallet => monitor_wallet w
  | TrackProfit => track_profit w
  | GetWalletNfts => get_wallet_nfts w
  | GetWalletValue => get_wallet_value w
  | GetWalletStatus => get_wallet_status w
  end.

Inductive reachable : wallet -> Prop :=
| reach_init : forall clock address, reachable (__init__ clock address)
| reach_call : forall self m w,
    reachable self -> reachable (snd (call m w self)).

(** The wallet after [n] consecutive [monitor_wallet] calls, the [k]-th in
    the world [worlds k]. *)
Fixpoint monitor_n (worlds : nat -> world) (n : nat) (self : wallet) : wallet :=
  match n with
  | O => self
  | S k => snd (monitor_wallet (worlds k) (monitor_n worlds k self))
  end.

(** *** The profit delta as the specification words it *)

(** The float of a record's ["amount"], when the entry is a record that
    has one and it coerces. *)
Definition coercible_amount (tx : pyval) : option float :=
  match tx with
  | PDict entries =>
      match dict_get "amount" entries with
      | Some amount =>
          match py_float str_to_float amount with
          | Ok x => Some x
          | Raise _ => None
          end
      | None => None
      end
  | _ => None
  end.

Fixpoint coercible_amounts (txs : list pyval) : list float :=
  match txs with
  | [] => []
  | tx :: rest =>
      match coercible_amount tx with
      | Some x => x :: coercible_amounts rest
      | None => coercible_amounts rest
      end
  end.

End Monitor.

(** Worlds and replies used in the examples. *)
Definition all_fail : world :=
  {| net := fun _ => Failed "Cannot connect to host"; now := "2026-01-01T00:00:00" |}.

Definition ok_list (items : list pyval) : http_reply := Response 200 (Some (PList items)).

Definition no_parse (_ : string) : option float := None.

(** The payload a fetch accepts from a reply, with its [len]: the reply is a
    200 whose body parses and has a length. *)
Definition fetched (r : http_reply) : option (pyval * Z) :=
  match r with
  | Response status (Some payload) =>
      if status =? 200 then
        match py_len payload with
        | Ok n => Some (payload, n)
        | Raise _ => None
        end
      else None
  | _ => None
  end.

(** The placeholder of the balance fetch. *)
Definition pending_envelope (w : world) (self : wallet) : pyval :=
  PDict [("status", PStr "pending");
         ("wallet", PStr (wallet_address self));
         ("message", PStr "Wallet monitoring active");
         ("timestamp", PStr (now w))].

(** An envelope: a dict with a ["status"] entry. *)
Definition is_envelope (v : pyval) : bool :=
  match v with
  | PDict entries => dict_mem "status" entries
  | _ => false
  end.

(** [key in v] for a value that may not be a dict *)
Definition has_key (key : string) (v : pyval) : bool :=
  match v with
  | PDict entries => dict_mem key entries
  | _ => false
  end.

(** The primary balance provider answers 500; the other providers answer
    200 with an empty list. *)
Definition primary_500 : world :=
  {| net := fun ep =>
              match ep with
              | HeliusBalances => Response 500 None
              | _ => ok_list []
              end;
     now := "2026-01-01T00:00:00" |}.

(** Every provider answers 200 with an empty list. *)
Definition all_ok : world :=
  {| net := fun _ => ok_list []; now := "2026-01-01T00:00:00" |}.

(** The NFT provider answers 500; the other providers answer 200 with an
    empty list. *)
Definition nfts_500 : world :=
  {| net := fun ep =>
              match ep with
              | MagicEdenNfts => Response 500 None
              | _ => ok_list []
              end;
     now := "2026-01-01T00:00:00" |}.

(** The transaction list of the specification's example. *)
Definition example_txs : list pyval :=
  [PDict [("amount", PInt 3)];
   PDict [("amount", PStr "bad")];
   PDict [("amount", PInt (-1))];
   PDict [("signature", PStr "5h6x")];
   PDict [("amount", PInt 2)]].

(** Every provider answers 200; the transaction provider answers with
    [example_txs]. *)
Definition example_world : world :=
  {| net := fun ep =>
              match ep with
              | SolscanTransactions _ => ok_list example_txs
              | _ => ok_list []
              end;
     now := "2026-01-01T00:00:00" |}.

(** A plain mean and population standard deviation, summed left to right;
    they stand in for numpy's in the examples. *)
Definition plain_mean (xs : list float) : float :=
  match int_to_float (len xs) with
  | Ok n => (float_sum xs / n)%float
  | Raise _ => nan
  end.

Definition plain_std (xs : list float) : float :=
  let mean := plain_mean xs in
  sqrt (plain_mean (map (fun x => ((x - mean) * (x - mean))%float) xs)).

(** [PHI ** (fib / 10)] for the entries of [FIBONACCI], as glibc's [pow]
    returns them: the exponent, then the power. *)
Definition phi_powers : list (float * float) :=
  [(0x1.999999999999ap-4, 0x1.0c9ec7e89f1f0p+0);
   (0x1.999999999999ap-3, 0x1.19dcd50a6c68cp+0);
   (0x1.3333333333333p-2, 0x1.27c2016d2edb0p+0);
   (0x1.0000000000000p-1, 0x1.45a3146a88456p+0);
   (0x1.999999999999ap-1, 0x1.7835b3ecc0e13p+0);
   (0x1.4cccccccccccdp+0, 0x1.de8bd59de12a3p+0);
   (0x1.0cccccccccccdp+1, 0x1.5fa0e284ba1cdp+1);
   (0x1.b333333333333p+1, 0x1.48a73c5c447e4p+2);
   (0x1.6000000000000p+2, 0x1.c36bd71644070p+3);
   (0x1.1cccccccccccdp+3, 0x1.21c488aee850ap+6);
   (0x1.ccccccccccccdp+3, 0x1.fef74d66870fep+9);
   (0x1.74ccccccccccdp+4, 0x1.212eba443eef3p+16);
   (0x1.2d9999999999ap+5, 0x1.2099394c46381p+26);
   (0x1.e800000000000p+5, 0x1.4601a733aa40cp+42);
   (0x1.8accccccccccdp+6, 0x1.6f84fc0e8d8d9p+68)]%float.

(** A [pow] that knows the base [PHI] at the table's exponents only. *)
Definition table_pow (x y : float) : res float :=
  if (x =? PHI)%float then
    match find (fun entry => (fst entry =? y)%float) phi_powers with
    | Some entry => Ok (snd entry)
    | None => Raise OverflowError
    end
  else Raise OverflowError.

(** The wallet with another balance history. *)
Definition with_balance_history (history : list pyval) (self : wallet) : wallet :=
  {| wallet_address := wallet_address self;
     balance_history := history;
     transactions := transactions self;
     profit_tracking := profit_tracking self |}.

(** The primary balance provider answers 200 with a payload; the other
    providers answer 200 with an empty list. *)
Definition balance_ok : world :=
  {| net := fun ep =>
              match ep with
              | HeliusBalances => Response 200 (Some (PDict [("nativeBalance", PInt 5)]))
              | _ => ok_list []
              end;
     now := "2026-01-01T00:00:00" |}.

(** Unfolds the monad's operations in a method body. *)
Ltac run_m :=
  unfold bind, try_except, lift, ret, get_self, set_self, session_get,
    response_json, read_local; simpl.

(* ================================================================= *)
(** ** [magick_engine.py]: class [PositiveMagick], and the rest of
       [MagickProfitEngine] *)

Definition intention_setting (clock goal positive_affirmation : string) : pyval :=
  PDict [("practice", PStr "intention_setting");
         ("goal", PStr goal);
         ("affirmation", PStr positive_affirmation);
         ("timestamp", PStr clock);
         ("energy", PStr "Focused, positive intention")].

Definition gratitude_practice (clock gratitude_for : string) : pyval :=
  PDict [("practice", PStr "gratitude");
         ("gratitude_for", PStr gratitude_for);
         ("vibration_level", PStr "High");
         ("effect", PStr "Attracts positive outcomes");
         ("timestamp", PStr clock)].

Definition ethical_alignment (clock action : string) (harm_check : bool) : pyval :=
  PDict [("practice", PStr "ethical_alignment");
         ("action", PStr action);
         ("harms_no_one", PBool harm_check);
         ("serves_good", PBool true);
         ("alignment", PStr (if harm_check then "ALIGNED" else "NOT ALIGNED"));
         ("timestamp", PStr clock)].

(** [max(xs)] on a list: the first item, replaced by each later item that
    is greater; [ValueError] on an empty list. *)
Definition float_max_list (xs : list float) : res float :=
  match xs with
  | [] => Raise ValueError
  | x :: rest => Ok (fold_left float_max rest x)
  end.

Section AnalyzeOpportunity.
Variable float_pow : float -> float -> res float.
(** How an f-string formats a float is the interpreter's [repr]. *)
Variable float_str : float -> string.

Definition analyze_opportunity (clock asset : string) (price volume : float)
    : res pyval :=
  (fib_levels <- golden_ratio_levels float_pow price ;;
   vibration <- principle_vibration volume ;;
   quantum <- superposition (price * 0x1.0cccccccccccdp+0) (price * 0x1.e666666666666p-1) ;;
   let ethical :=
     ethical_alignment clock ("Trade " ++ asset ++ " at " ++ float_str price) true in
   top <- float_max_list fib_levels ;;
   q <- float_truediv price top ;;
   Ok (PDict [("asset", PStr asset);
              ("price", PFloat price);
              ("volume", PFloat volume);
              ("sacred_geometry",
               PDict [("fibonacci_levels", PList (map PFloat (firstn 5 fib_levels)));
                      ("golden_ratio", PFloat PHI)]);
              ("hermetic_analysis", vibration);
              ("quantum_analysis", quantum);
              ("ethical_alignment", ethical);
              ("opportunity_score", PFloat (q * 100));
              ("timestamp", PStr clock)]))%res.
End AnalyzeOpportunity.

(** [execute_trade_with_magick]: the trade it returns, and the engine with
    the trade appended. *)
Definition execute_trade_with_magick (clock asset : string) (amount price : float)
    (self : MagickProfitEngine) : pyval * MagickProfitEngine :=
  let intention :=
    intention_setting clock ("Profitable trade in " ++ asset)
      ("I attract profitable opportunities with " ++ asset) in
  let gratitude := gratitude_practice clock "Abundance, opportunity, and wisdom" in
  let trade :=
    PDict [("asset", PStr asset);
           ("amount", PFloat amount);
           ("entry_price", PFloat price);
           ("timestamp", PStr clock);
           ("intention", intention);
           ("gratitude", gratitude);
           ("status", PStr "EXECUTED")] in
  (trade, {| trades := trades self ++ [trade]; profits := profits self |}).

(** The two methods that write the engine, and a sequence of calls. *)
Inductive engine_call : Type :=
| ExecuteTrade (asset : string) (amount price : float)
| CalculateProfit (entry exit amount : float).

Definition engine_step (clock : string) (c : engine_call) (self : MagickProfitEngine)
    : MagickProfitEngine :=
  match c with
  | ExecuteTrade asset amount price =>
      snd (execute_trade_with_magick clock asset amount price self)
  | CalculateProfit entry exit amount =>
      snd (calculate_magick_profit clock entry exit amount self)
  end.

Definition engine_run (clock : string) (calls : list engine_call)
    (self : MagickProfitEngine) : MagickProfitEngine :=
  fold_left (fun engine c => engine_step clock c engine) calls self.

(** The calls of a sequence that append: every trade, and the profit
    calculations whose entry price is not a zero. *)
Definition is_trade (c : engine_call) : bool :=
  match c with ExecuteTrade _ _ _ => true | CalculateProfit _ _ _ => false end.

Definition is_profit (c : engine_call) : bool :=
  match c with
  | ExecuteTrade _ _ _ => false
  | CalculateProfit entry _ _ => negb (entry =? 0)%float
  end.

(* ================================================================= *)
(** ** Sequences of wallet calls *)

Definition run_calls (str_to_float : string -> option float)
    (calls : list (method * world)) (self : wallet) : wallet :=
  fold_left (fun s c => snd (call str_to_float (fst c) (snd c) s)) calls self.

Definition is_monitor (c : method * world) : bool :=
  match fst c with MonitorWallet => true | _ => false end.

(** The methods that only read the wallet. *)
Definition read_only (m : method) : bool :=
  match m with
  | GetTransactionHistory _ | MonitorWallet => false
  | _ => true
  end.

(** The transaction provider answers 200 with a JSON object, the other
    providers with an empty list. *)
Definition tx_object : world :=
  {| net := fun ep =>
              match ep with
              | SolscanTransactions _ =>
                  Response 200 (Some (PDict [("error", PStr "rate limit")]))
              | _ => ok_list []
              end;
     now := "2026-01-01T00:00:00" |}.

(** The transaction provider answers 200 with a JSON number. *)
Definition tx_number : world :=
  {| net := fun ep =>
              match ep with
              | SolscanTransactions _ => Response 200 (Some (PInt 7))
              | _ => ok_list []
              end;
     now := "2026-01-01T00:00:00" |}.

(** The success envelope of the transaction fetch for a list payload. *)
Definition tx_envelope (clock : string) (txs : list pyval) : pyval :=
  PDict [("status", PStr "success");
         ("transactions", PList txs);
         ("count", PInt (len txs));
         ("timestamp", PStr clock)].

(** [r[key]] for a result that should be a dict: the result's own
    exception, or the entry. *)
Definition py_get_res (r : res pyval) (key : string) : res pyval :=
  (v <- r ;; py_get v key PNone)%res.

(* ================================================================= *)
(** * Part 2: properties *)

(* ================================================================= *)
(** ** Binary64 facts

    The kernel's floats are specified bit by bit ([FloatAxioms]); the few
    order facts the formulas need are derived here from the rounding
    function [binary_round_aux]. *)

Section Binary64.
Local Abbreviation fexp := (SpecFloat.fexp prec emax).

Lemma fexp_eq e : SpecFloat.fexp prec emax e = Z.max (e - 53) (-1074).
Proof. reflexivity. Qed.

Lemma digits2_log2 p : Zpos (digits2_pos p) = Z.log2 (Zpos p) + 1.
Proof.
  assert (H: forall q, digits2_pos q = Pos.size q) by (induction q; simpl; congruence).
  rewrite H. destruct p; simpl; lia.
Qed.

Lemma Zdigits2_pos_shiftr m n :
  0 < m -> 0 <= n ->
  Zdigits2 (Z.shiftr m n) = Z.max 0 (Zdigits2 m - n).
Proof.
  intros Hm Hn.
  destruct m as [|p|p]; try lia.
  assert (Hnn : 0 <= Z.shiftr (Zpos p) n) by (apply Z.shiftr_nonneg; lia).
  destruct (Z.shiftr (Zpos p) n) as [|q|q] eqn:E; try lia.
  - simpl Zdigits2. rewrite digits2_log2.
    apply Z.shiftr_eq_0_iff in E. destruct E as [E|[_ E]]; lia.
  - simpl Zdigits2. rewrite !digits2_log2. rewrite <- E.
    rewrite Z.log2_shiftr by lia.
    assert (0 < Z.shiftr (Zpos p) n) by lia.
    assert (n <= Z.log2 (Zpos p)).
    { destruct (Z_le_gt_dec n (Z.log2 (Zpos p))); auto.
      assert (Z.shiftr (Zpos p) n = 0) by (apply Z.shiftr_eq_0; lia). lia. }
    lia.
Qed.

Lemma shr_1_m r : 0 <= shr_m r -> shr_m (shr_1 r) = Z.shiftr (shr_m r) 1.
Proof.
  destruct r as [m b s]; simpl; intros H.
  destruct m as [|[p|p|]|p]; try lia; try reflexivity.
Qed.

Lemma iter_shr_1_m p : forall r,
  0 <= shr_m r -> shr_m (iter_pos shr_1 p r) = Z.shiftr (shr_m r) (Zpos p).
Proof.
  induction p; intros r H; simpl iter_pos.
  - rewrite IHp, IHp, shr_1_m by
      (repeat first [ rewrite IHp | rewrite shr_1_m | apply Z.shiftr_nonneg | assumption ]).
    rewrite !Z.shiftr_shiftr by lia. f_equal. lia.
  - rewrite IHp, IHp by (repeat first [ rewrite IHp | apply Z.shiftr_nonneg | assumption ]).
    rewrite !Z.shiftr_shiftr by lia. f_equal. lia.
  - apply shr_1_m; assumption.
Qed.

Lemma shr_m_spec r e n :
  0 <= shr_m r ->
  shr_m (fst (shr r e n)) = Z.shiftr (shr_m r) (Z.max 0 n) /\
  snd (shr r e n) = e + Z.max 0 n.
Proof.
  intros H. destruct n as [|p|p]; simpl.
  - split; [reflexivity | lia].
  - split; [apply iter_shr_1_m; assumption | lia].
  - split; [reflexivity | lia].
Qed.

Lemma shr_record_of_loc_m m l : shr_m (shr_record_of_loc m l) = m.
Proof. destruct l as [|[| |]]; reflexivity. Qed.

Lemma shr_fexp_spec m e l :
  0 <= m ->
  let n := Z.max 0 (fexp (Zdigits2 m + e) - e) in
  shr_m (fst (shr_fexp prec emax m e l)) = Z.shiftr m n /\
  snd (shr_fexp prec emax m e l) = e + n.
Proof.
  intros H n. unfold shr_fexp.
  pose proof (shr_m_spec (shr_record_of_loc m l) e
                (SpecFloat.fexp prec emax (Zdigits2 m + e) - e)) as S.
  rewrite shr_record_of_loc_m in S. apply S; assumption.
Qed.

Lemma round_nearest_even_bounds m l :
  m <= round_nearest_even m l <= m + 1.
Proof.
  destruct l as [|[| |]]; simpl; try lia. destruct (Z.even m); lia.
Qed.

Lemma Zdigits2_nonneg m : 0 <= Zdigits2 m.
Proof. destruct m; simpl; lia. Qed.

Lemma Zdigits2_pos m : 0 < m -> 0 < Zdigits2 m.
Proof. destruct m; simpl; lia. Qed.

Lemma Zdigits2_mono a b : 0 <= a <= b -> Zdigits2 a <= Zdigits2 b.
Proof.
  intros [Ha Hab]. destruct a as [|p|p]; try lia.
  - apply Zdigits2_nonneg.
  - destruct b as [|q|q]; try lia. simpl. rewrite !digits2_log2.
    pose proof (Z.log2_le_mono (Zpos p) (Zpos q) Hab). lia.
Qed.

Lemma Zdigits2_succ m : 0 <= m -> Zdigits2 (m + 1) <= Zdigits2 m + 1.
Proof.
  intros H. destruct m as [|p|p]; try lia.
  - simpl. lia.
  - change (Zpos p + 1) with (Zpos (p + 1)).
    unfold Zdigits2. rewrite !digits2_log2.
    pose proof (Z.log2_succ_le (Zpos p)) as L.
    replace (Z.succ (Zpos p)) with (Zpos (p + 1)) in L by lia. lia.
Qed.

(** What [binary_round_aux] computes on a positive mantissa, in terms of
    two right shifts and one rounding step. *)
Lemma binary_round_aux_shape s m e l :
  0 < m ->
  exists m1 e1 n1,
    let n := Z.max 0 (fexp (Zdigits2 m + e) - e) in
    e1 = e + n /\
    n1 = Z.max 0 (fexp (Zdigits2 m1 + e1) - e1) /\
    Z.shiftr m n <= m1 <= Z.shiftr m n + 1 /\
    binary_round_aux prec emax s m e l =
      match Z.shiftr m1 n1 with
      | Z0 => S754_zero s
      | Zpos q =>
          if e1 + n1 <=? emax - prec then S754_finite s q (e1 + n1)
          else S754_infinity s
      | Zneg _ => S754_nan
      end.
Proof.
  intros Hm. unfold binary_round_aux.
  destruct (shr_fexp_spec m e l) as [Hm1 He1]; [lia|].
  destruct (shr_fexp prec emax m e l) as [mrs' e'] eqn:E1. simpl in Hm1, He1.
  set (m1 := round_nearest_even (shr_m mrs') (loc_of_shr_record mrs')).
  assert (Hb : shr_m mrs' <= m1 <= shr_m mrs' + 1) by apply round_nearest_even_bounds.
  assert (Hnn : 0 <= shr_m mrs') by (rewrite Hm1; apply Z.shiftr_nonneg; lia).
  destruct (shr_fexp_spec m1 e' loc_Exact) as [Hm2 He2]; [lia|].
  destruct (shr_fexp prec emax m1 e' loc_Exact) as [mrs'' e''] eqn:E2.
  simpl in Hm2, He2.
  exists m1, e', (Z.max 0 (fexp (Zdigits2 m1 + e') - e')).
  cbv zeta. rewrite <- Hm1, <- Hm2, <- He2.
  repeat split; try assumption; try lia.
Qed.

(** A product or a conversion that starts above the smallest subnormal
    does not round to zero. *)
Lemma binary_round_aux_nonzero s m e l :
  0 < m -> emin - e < Zdigits2 m ->
  binary_round_aux prec emax s m e l = S754_infinity s \/
  exists q e', binary_round_aux prec emax s m e l = S754_finite s q e'.
Proof.
  intros Hm He.
  destruct (binary_round_aux_shape s m e l Hm) as (m1 & e1 & n1 & H1 & H2 & H3 & ->).
  cbv zeta in *. rewrite fexp_eq in *.
  change emin with (-1074) in He.
  remember (Z.max 0 (Z.max (Zdigits2 m + e - 53) (-1074) - e)) as n eqn:En.
  assert (Hn : 0 <= n) by lia.
  pose proof (Zdigits2_pos m Hm) as Dm.
  pose proof (Zdigits2_pos_shiftr m n Hm Hn) as Dt.
  assert (Ht : 0 < Z.shiftr m n).
  { assert (0 <= Z.shiftr m n) by (apply Z.shiftr_nonneg; lia).
    destruct (Z.eq_dec (Z.shiftr m n) 0) as [Z0|]; [|lia].
    rewrite Z0 in Dt. simpl in Dt. lia. }
  assert (Hm1 : 0 < m1) by lia.
  assert (D1 : Zdigits2 (Z.shiftr m n) <= Zdigits2 m1) by (apply Zdigits2_mono; lia).
  assert (Hn1 : 0 <= n1) by lia.
  pose proof (Zdigits2_pos_shiftr m1 n1 Hm1 Hn1) as Du.
  assert (Hu : 0 < Z.shiftr m1 n1).
  { assert (0 <= Z.shiftr m1 n1) by (apply Z.shiftr_nonneg; lia).
    destruct (Z.eq_dec (Z.shiftr m1 n1) 0) as [Z0|]; [|lia].
    rewrite Z0 in Du. simpl in Du. lia. }
  destruct (Z.shiftr m1 n1) as [|q|q]; try lia.
  destruct (e1 + n1 <=? emax - prec); eauto.
Qed.

(** Rounding a mantissa whose exponent is not above the canonical one
    gives a valid binary64 number. *)
Lemma binary_round_aux_valid s m e l :
  0 < m -> e <= fexp (Zdigits2 m + e) ->
  valid_binary (binary_round_aux prec emax s m e l) = true.
Proof.
  intros Hm He.
  destruct (binary_round_aux_shape s m e l Hm) as (m1 & e1 & n1 & H1 & H2 & H3 & ->).
  cbv zeta in *. rewrite fexp_eq in *.
  remember (Z.max 0 (Z.max (Zdigits2 m + e - 53) (-1074) - e)) as n eqn:En.
  assert (Hn : 0 <= n) by lia.
  pose proof (Zdigits2_pos_shiftr m n Hm Hn) as Dt.
  assert (Hnn : 0 <= Z.shiftr m n) by (apply Z.shiftr_nonneg; lia).
  assert (D1 : Zdigits2 (Z.shiftr m n) <= Zdigits2 m1) by (apply Zdigits2_mono; lia).
  assert (Hn1 : 0 <= n1) by lia.
  destruct (Z.shiftr m1 n1) as [|q|q] eqn:Eu; try reflexivity.
  destruct (e1 + n1 <=? emax - prec) eqn:Eb; try reflexivity.
  assert (Hm1 : 0 < m1).
  { destruct (Z.eq_dec m1 0) as [Z0|]; [|lia].
    rewrite Z0, Z.shiftr_0_l in Eu. discriminate. }
  pose proof (Zdigits2_pos_shiftr m1 n1 Hm1 Hn1) as Du.
  rewrite Eu in Du. simpl Zdigits2 in Du at 1.
  simpl valid_binary. unfold bounded, canonical_mantissa.
  rewrite Eb, andb_true_r. apply Z.eqb_eq. rewrite fexp_eq.
  pose proof (Zdigits2_pos m1 Hm1). lia.
Qed.

Lemma canonical_exp m e :
  canonical_mantissa prec emax m e = true ->
  e = Z.max (Z.log2 (Zpos m) + 1 + e - 53) (-1074).
Proof.
  unfold canonical_mantissa. rewrite fexp_eq, digits2_log2.
  intros H. apply Z.eqb_eq in H. lia.
Qed.

Lemma Prim2SF_zero : Prim2SF 0 = S754_zero false.
Proof. reflexivity. Qed.

Lemma Prim2SF_one : Prim2SF 1 = S754_finite false 4503599627370496 (-52).
Proof. reflexivity. Qed.

(** A float that compares [>= 1] is [+inf] or has a 53-bit mantissa at an
    exponent of at least [-52]. *)
Lemma ge_one_shape y :
  (1 <=? y)%float = true ->
  Prim2SF y = S754_infinity false \/
  exists m e, Prim2SF y = S754_finite false m e /\ 52 <= Z.log2 (Zpos m) /\ -52 <= e.
Proof.
  rewrite leb_spec, Prim2SF_one. pose proof (Prim2SF_valid y) as V.
  destruct (Prim2SF y) as [sy|sy| |sy my ey]; unfold SFleb, SFcompare;
    try discriminate.
  - destruct sy; [discriminate | auto].
  - destruct sy; [discriminate|]. intros H. right. exists my, ey. split; [reflexivity|].
    unfold valid_binary, bounded in V. apply andb_true_iff in V. destruct V as [C _].
    apply canonical_exp in C.
    destruct (Z.compare_spec (-52) ey) as [E|L|G]; try discriminate; lia.
Qed.

Lemma gt_zero_shape x :
  (0 <? x)%float = true ->
  Prim2SF x = S754_infinity false \/
  exists m e, Prim2SF x = S754_finite false m e /\ -1074 <= e.
Proof.
  rewrite ltb_spec, Prim2SF_zero. pose proof (Prim2SF_valid x) as V.
  destruct (Prim2SF x) as [sx|sx| |sx mx ex]; unfold SFltb; simpl; try discriminate.
  - destruct sx; [discriminate | auto].
  - destruct sx; [discriminate|]. intros _. right. exists mx, ex. split; [reflexivity|].
    simpl in V. unfold bounded in V. apply andb_true_iff in V. destruct V as [C _].
    apply canonical_exp in C. lia.
Qed.

(** The product of a positive float and a float that is at least 1 is
    positive: it can overflow to [+inf], and cannot underflow to zero. *)
Lemma float_mul_pos x y :
  (0 <? x)%float = true -> (1 <=? y)%float = true -> (0 <? x * y)%float = true.
Proof.
  intros Hx Hy. rewrite ltb_spec, mul_spec, Prim2SF_zero.
  destruct (gt_zero_shape x Hx) as [-> | (mx & ex & -> & Ex)];
    destruct (ge_one_shape y Hy) as [-> | (my & ey & -> & Ly & Ey)];
    try reflexivity.
  unfold SF64mul, SFmul. simpl xorb.
  destruct (binary_round_aux_nonzero false (Zpos (mx * my)) (ex + ey) loc_Exact)
    as [-> | (q & e' & ->)]; try reflexivity; try lia.
  change emin with (-1074). simpl Zdigits2. rewrite digits2_log2.
  pose proof (Z.log2_mul_below (Zpos mx) (Zpos my) ltac:(lia) ltac:(lia)) as L.
  pose proof (Z.log2_nonneg (Zpos mx)).
  change (Zpos (mx * my)) with (Zpos mx * Zpos my). lia.
Qed.

Lemma digits2_iter_xO p k :
  Zpos (digits2_pos (Pos.iter xO p k)) = Zpos (digits2_pos p) + Zpos k.
Proof.
  induction k using Pos.peano_ind.
  - simpl. lia.
  - rewrite Pos.iter_succ. simpl digits2_pos. lia.
Qed.

(** Converting a nonzero integer mantissa at exponent 0: the result is a
    valid binary64 number, and it is an infinity or finite, never zero. *)
Lemma binary_round_int s p :
  valid_binary (binary_round prec emax s p 0) = true /\
  (binary_round prec emax s p 0 = S754_infinity s \/
   exists q e, binary_round prec emax s p 0 = S754_finite s q e).
Proof.
  unfold binary_round, shl_align. rewrite fexp_eq.
  pose proof (Zdigits2_pos (Zpos p) eq_refl) as Dp. simpl Zdigits2 in Dp.
  destruct (Z.max (Zpos (digits2_pos p) + 0 - 53) (-1074) - 0) as [|d|d] eqn:E.
  - split.
    + apply binary_round_aux_valid; [lia|]. rewrite fexp_eq.
      simpl Zdigits2. lia.
    + apply binary_round_aux_nonzero; [lia|]. change emin with (-1074).
      simpl Zdigits2. lia.
  - split.
    + apply binary_round_aux_valid; [lia|]. rewrite fexp_eq.
      simpl Zdigits2. lia.
    + apply binary_round_aux_nonzero; [lia|]. change emin with (-1074).
      simpl Zdigits2. lia.
  - split.
    + apply binary_round_aux_valid; [lia|]. rewrite fexp_eq.
      simpl Zdigits2. rewrite digits2_iter_xO. lia.
    + apply binary_round_aux_nonzero; [lia|]. change emin with (-1074).
      simpl Zdigits2. rewrite digits2_iter_xO. lia.
Qed.

(** Below [2^1023] the conversion stays finite. *)
Lemma binary_round_aux_finite s m e l :
  0 < m -> e <= fexp (Zdigits2 m + e) -> Zdigits2 m + e <= 1023 ->
  binary_round_aux prec emax s m e l <> S754_infinity s.
Proof.
  intros Hm He Hd.
  destruct (binary_round_aux_shape s m e l Hm) as (m1 & e1 & n1 & H1 & H2 & H3 & ->).
  cbv zeta in *. rewrite fexp_eq in *.
  remember (Z.max 0 (Z.max (Zdigits2 m + e - 53) (-1074) - e)) as n eqn:En.
  assert (Hn : 0 <= n) by lia.
  pose proof (Zdigits2_pos m Hm) as Dm.
  pose proof (Zdigits2_pos_shiftr m n Hm Hn) as Dt.
  assert (Hnn : 0 <= Z.shiftr m n) by (apply Z.shiftr_nonneg; lia).
  assert (D1 : Zdigits2 m1 <= Zdigits2 (Z.shiftr m n) + 1).
  { etransitivity; [apply (Zdigits2_mono m1 (Z.shiftr m n + 1)); lia|].
    apply Zdigits2_succ; assumption. }
  destruct (Z.shiftr m1 n1) as [|q|q]; try discriminate.
  destruct (e1 + n1 <=? emax - prec) eqn:Eb; try discriminate.
  apply Z.leb_gt in Eb. change (emax - prec) with 971 in Eb. lia.
Qed.

Lemma int_to_float_small n :
  0 <= n < 2 ^ 1023 -> exists d, int_to_float n = Ok d.
Proof.
  intros [H0 Hn]. unfold int_to_float, binary_normalize.
  destruct n as [|p|p]; try lia; [eexists; reflexivity|].
  assert (F : binary_round prec emax false p 0 <> S754_infinity false).
  { assert (Dp : Zpos (digits2_pos p) <= 1023).
    { rewrite digits2_log2.
      assert (Z.log2 (Zpos p) < 1023) by (apply Z.log2_lt_pow2; lia). lia. }
    unfold binary_round, shl_align. rewrite fexp_eq.
    destruct (Z.max (Zpos (digits2_pos p) + 0 - 53) (-1074) - 0) as [|d|d] eqn:E;
      apply binary_round_aux_finite; try lia; rewrite ?fexp_eq;
      simpl Zdigits2; rewrite ?digits2_iter_xO; lia. }
  destruct (binary_round_int false p) as [_ [I | (q & e & ->)]].
  - contradiction.
  - eexists; reflexivity.
Qed.






Lemma int_to_float_overflow_bound :
  int_to_float (2 ^ 1024 - 2 ^ 970) = Raise OverflowError.
Proof. vm_compute. reflexivity. Qed.

(** [float(n)] of a nonzero int is not a zero. *)
Lemma int_to_float_nonzero n d :
  n <> 0 -> int_to_float n = Ok d -> (d =? 0)%float = false.
Proof.
  unfold int_to_float, binary_normalize. intros Hn H.
  assert (S : forall s p,
             match binary_round prec emax s p 0 with
             | S754_infinity _ => Raise OverflowError
             | sf => Ok (SF2Prim sf)
             end = Ok d -> (d =? 0)%float = false).
  { intros s p Hd. destruct (binary_round_int s p) as [V [I | (q & e & F)]].
    - rewrite I in Hd. discriminate.
    - rewrite F in Hd, V.
      assert (Ed : d = SF2Prim (S754_finite s q e)) by congruence.
      rewrite Ed, eqb_spec, Prim2SF_SF2Prim, Prim2SF_zero by exact V.
      destruct s; reflexivity. }
  destruct n as [|p|p]; [lia | apply (S false p H) | apply (S true p H)].
Qed.
End Binary64.

(* ================================================================= *)
(** ** The fetchers, case by case *)

Lemma fallback_cases w self :
  (exists data,
      net w SolscanAccount = Response 200 (Some data) /\
      _get_balance_fallback w self =
        (Ok (PDict [("status", PStr "success");
                    ("wallet", PStr (wallet_address self));
                    ("data", data);
                    ("timestamp", PStr (now w))]), self)) \/
  _get_balance_fallback w self = (Ok (pending_envelope w self), self).
Proof.
  unfold _get_balance_fallback. run_m.
  destruct (net w SolscanAccount) as [msg | status [data|]] eqn:E; simpl; auto;
    destruct (Z.eqb_spec status 200) as [->|]; simpl; auto.
  left. exists data. auto.
Qed.

Lemma fallback_total w self :
  exists v, _get_balance_fallback w self = (Ok v, self) /\ is_envelope v = true.
Proof.
  destruct (fallback_cases w self) as [(data & _ & ->) | ->]; eexists; split;
    reflexivity.
Qed.

Lemma get_wallet_balance_total w self :
  exists v, get_wallet_balance w self = (Ok v, self).
Proof.
  destruct (fallback_total w self) as (fb & Hfb & _).
  unfold get_wallet_balance. run_m.
  destruct (net w HeliusBalances) as [msg | status [data|]]; simpl;
    rewrite ?Hfb; simpl; eauto;
    destruct (status =? 200); simpl; rewrite ?Hfb; simpl; eauto;
    destruct (status =? 429); simpl; rewrite ?Hfb; simpl; eauto.
Qed.

Lemma get_token_balances_cases w self :
  get_token_balances w self =
    match fetched (net w MagicEdenTokens) with
    | Some (tokens, count) =>
        (Ok (PDict [("status", PStr "success");
                    ("tokens", tokens);
                    ("count", PInt count);
                    ("timestamp", PStr (now w))]), self)
    | None => (Raise (UnboundLocalError "e"), self)
    end.
Proof.
  unfold get_token_balances, fetched. run_m.
  destruct (net w MagicEdenTokens) as [msg | status [payload|]]; simpl; auto;
    destruct (status =? 200); simpl; auto.
  destruct (py_len payload); reflexivity.
Qed.

Lemma get_wallet_nfts_cases w self :
  get_wallet_nfts w self =
    match fetched (net w MagicEdenNfts) with
    | Some (nfts, count) =>
        (Ok (PDict [("status", PStr "success");
                    ("nfts", nfts);
                    ("count", PInt count);
                    ("timestamp", PStr (now w))]), self)
    | None => (Raise (UnboundLocalError "e"), self)
    end.
Proof.
  unfold get_wallet_nfts, fetched. run_m.
  destruct (net w MagicEdenNfts) as [msg | status [payload|]]; simpl; auto;
    destruct (status =? 200); simpl; auto.
  destruct (py_len payload); reflexivity.
Qed.

Lemma get_transaction_history_cases w limit self :
  get_transaction_history w limit self =
    match net w (SolscanTransactions limit) with
    | Response status (Some txs) =>
        if status =? 200 then
          let self' := {| wallet_address := wallet_address self;
                          balance_history := balance_history self;
                          transactions := txs;
                          profit_tracking := profit_tracking self |} in
          match py_len txs with
          | Ok count =>
              (Ok (PDict [("status", PStr "success");
                          ("transactions", txs);
                          ("count", PInt count);
                          ("timestamp", PStr (now w))]), self')
          | Raise _ => (Raise (UnboundLocalError "e"), self')
          end
        else (Raise (UnboundLocalError "e"), self)
    | _ => (Raise (UnboundLocalError "e"), self)
    end.
Proof.
  unfold get_transaction_history. run_m.
  destruct (net w (SolscanTransactions limit)) as [msg | status [payload|]];
    simpl; auto; destruct (status =? 200); simpl; auto.
  destruct (py_len payload); reflexivity.
Qed.

(* ================================================================= *)
(** ** The balance fetch *)

(** C4. The balance fetch never raises, but it does not always return an
    envelope: when the primary provider answers with a status other than
    200 and 429, the function body ends without a [return], so the call
    evaluates to [None]; no fallback is tried and no placeholder is built.
    The second part is that behaviour for every such status, the third the
    instance with status 500. *)
Theorem get_wallet_balance_none_on_other_status :
  (forall w self, exists v, get_wallet_balance w self = (Ok v, self)) /\
  (forall w self status body,
      net w HeliusBalances = Response status body ->
      status <> 200 -> status <> 429 ->
      get_wallet_balance w self = (Ok PNone, self)) /\
  (forall self,
      get_wallet_balance primary_500 self = (Ok PNone, self) /\
      is_envelope PNone = false).
Proof.
  split; [exact get_wallet_balance_total|]. split.
  - intros w self status body E H200 H429.
    unfold get_wallet_balance. run_m. rewrite E. simpl.
    destruct (Z.eqb_spec status 200); [contradiction|].
    destruct (Z.eqb_spec status 429); [contradiction|]. reflexivity.
  - intros self. split; reflexivity.
Qed.

(** On a 200 whose body parses, the balance fetch returns the success
    envelope with the payload. *)
Lemma get_wallet_balance_primary_success w self data :
  net w HeliusBalances = Response 200 (Some data) ->
  get_wallet_balance w self =
    (Ok (PDict [("status", PStr "success");
                ("wallet", PStr (wallet_address self));
                ("balance", data);
                ("timestamp", PStr (now w))]), self).
Proof.
  intros E. unfold get_wallet_balance. run_m. rewrite E. reflexivity.
Qed.

(** On a rate limit or an exception of the primary call, the balance fetch
    returns what the one fallback attempt returns. *)
Lemma get_wallet_balance_uses_fallback w self :
  (exists msg, net w HeliusBalances = Failed msg) \/
  (exists body, net w HeliusBalances = Response 429 body) \/
  net w HeliusBalances = Response 200 None ->
  get_wallet_balance w self = _get_balance_fallback w self.
Proof.
  destruct (fallback_total w self) as (fb & Hfb & _).
  intros [(msg & E) | [(body & E) | E]];
    unfold get_wallet_balance; run_m; rewrite E; simpl; rewrite Hfb; reflexivity.
Qed.

Lemma get_wallet_balance_uses_fallback_witness :
  net all_fail HeliusBalances = Failed "Cannot connect to host" /\
  get_wallet_balance all_fail (__init__ "t0" WALLET_ADDRESS) =
    _get_balance_fallback all_fail (__init__ "t0" WALLET_ADDRESS).
Proof.
  split; [reflexivity|].
  apply (get_wallet_balance_uses_fallback all_fail).
  left. exists "Cannot connect to host". reflexivity.
Defined.

(** When the fallback fails as well, the result is the pending placeholder
    with the account identifier and the status message. *)
Lemma get_wallet_balance_pending w self :
  (forall data, net w SolscanAccount <> Response 200 (Some data)) ->
  _get_balance_fallback w self = (Ok (pending_envelope w self), self).
Proof.
  intros H. destruct (fallback_cases w self) as [(data & E & _) | E]; [|exact E].
  destruct (H data E).
Qed.

(* ================================================================= *)
(** ** [monitor_wallet] *)

Section MonitorFacts.
Variable str_to_float : string -> option float.

(** The token fetch comes second and nothing catches what it raises: when
    it is not a 200 with a sized body, [monitor_wallet] raises before it
    touches the wallet. *)
Lemma monitor_wallet_raises_without_tokens w self :
  fetched (net w MagicEdenTokens) = None ->
  monitor_wallet str_to_float w self = (Raise (UnboundLocalError "e"), self).
Proof.
  intros E. destruct (get_wallet_balance_total w self) as (b & Hb).
  unfold monitor_wallet, bind. rewrite Hb, get_token_balances_cases, E. reflexivity.
Qed.

(** The profit loop adds the coercible amounts, in order. *)
Lemma profit_step_coercible profit tx :
  profit_step str_to_float profit tx =
    match coercible_amount str_to_float tx with
    | Some x => (profit + x)%float
    | None => profit
    end.
Proof.
  destruct tx; try reflexivity. unfold profit_step, coercible_amount, dict_mem, py_get.
  destruct (dict_get "amount" entries) as [amount|]; [|reflexivity].
  simpl. destruct (py_float str_to_float amount); reflexivity.
Qed.

Lemma profit_loop_sum txs : forall profit,
  fold_left (profit_step str_to_float) txs profit =
    fold_left PrimFloat.add (coercible_amounts str_to_float txs) profit.
Proof.
  induction txs as [|tx rest IH]; intros profit; [reflexivity|].
  simpl. rewrite profit_step_coercible.
  destruct (coercible_amount str_to_float tx); simpl; apply IH.
Qed.

(** What one call does when the token and transaction fetches succeed: the
    wallet is updated, and the call returns unless the balance is [None]. *)
Lemma monitor_wallet_after_fetches w self tokens n txs count :
  fetched (net w MagicEdenTokens) = Some (tokens, n) ->
  fetched (net w (SolscanTransactions 10)) = Some (txs, count) ->
  exists balance profit self',
    get_wallet_balance w self = (Ok balance, self) /\
    detect_profit str_to_float
      (PDict [("status", PStr "success"); ("transactions", txs);
              ("count", PInt count); ("timestamp", PStr (now w))]) = profit /\
    self' = {| wallet_address := wallet_address self;
               balance_history := balance_history self;
               transactions := txs;
               profit_tracking := profit_tracking self |} /\
    match profit with
    | Raise e => monitor_wallet str_to_float w self = (Raise e, self')
    | Ok delta =>
        let updated := update_profit_tracking w delta self' in
        monitor_wallet str_to_float w self =
          (match py_get balance "status" PNone with
           | Raise e => Raise e
           | Ok _ =>
               Ok (PDict [("status", PStr "success");
                          ("wallet", PStr (wallet_address self));
                          ("balance", balance);
                          ("tokens",
                           PDict [("status", PStr "success"); ("tokens", tokens);
                                  ("count", PInt n); ("timestamp", PStr (now w))]);
                          ("transactions",
                           PDict [("status", PStr "success"); ("transactions", txs);
                                  ("count", PInt count); ("timestamp", PStr (now w))]);
                          ("profit_tracking", profit_dict (profit_tracking updated));
                          ("timestamp", PStr (now w))])
           end, updated)
    end.
Proof.
  intros Et Ex. destruct (get_wallet_balance_total w self) as (b & Hb).
  eexists b, _, _. split; [exact Hb|]. split; [reflexivity|]. split; [reflexivity|].
  unfold monitor_wallet, bind.
  rewrite Hb, get_token_balances_cases, Et, get_transaction_history_cases.
  unfold fetched in Ex.
  destruct (net w (SolscanTransactions 10)) as [msg | status [payload|]];
    try discriminate.
  destruct (status =? 200); try discriminate.
  destruct (py_len payload) as [k|] eqn:El; try discriminate.
  injection Ex as -> ->. cbv zeta.
  unfold lift.
  destruct (detect_profit str_to_float _) as [delta|e]; [|reflexivity].
  unfold get_self, set_self, ret. simpl.
  destruct (py_get b "status" PNone); reflexivity.
Qed.

(** What one call does to the wallet: the address and the balance history
    stay; either the call raises with the profit state untouched, or the
    profit state is updated once, by some delta. *)
Lemma monitor_wallet_effect w self :
  let out := monitor_wallet str_to_float w self in
  wallet_address (snd out) = wallet_address self /\
  balance_history (snd out) = balance_history self /\
  ((is_ok (fst out) = false /\ profit_tracking (snd out) = profit_tracking self) \/
   exists delta,
     profit_tracking (snd out) = profit_tracking (update_profit_tracking w delta self)).
Proof.
  cbv zeta.
  destruct (fetched (net w MagicEdenTokens)) as [[tokens n]|] eqn:Et.
  2: { rewrite monitor_wallet_raises_without_tokens by exact Et. simpl. auto. }
  destruct (fetched (net w (SolscanTransactions 10))) as [[txs count]|] eqn:Ex.
  - destruct (monitor_wallet_after_fetches w self _ _ _ _ Et Ex)
      as (b & profit & self' & Hb & Hp & Hs & H).
    destruct profit as [delta|e]; cbv zeta in H; rewrite H; subst self'; simpl.
    + split; [reflexivity|]. split; [reflexivity|]. right. exists delta. reflexivity.
    + auto.
  - destruct (get_wallet_balance_total w self) as (b & Hb).
    unfold monitor_wallet, bind.
    rewrite Hb, get_token_balances_cases, Et, get_transaction_history_cases.
    unfold fetched in Ex.
    destruct (net w (SolscanTransactions 10)) as [msg | status [payload|]];
      simpl; auto.
    destruct (status =? 200); simpl; auto.
    destruct (py_len payload); try discriminate. simpl. auto.
Qed.

(** A call that returns has incremented the session counter by exactly 1. *)
Lemma monitor_wallet_ok_increments w self :
  is_ok (fst (monitor_wallet str_to_float w self)) = true ->
  sessions (profit_tracking (snd (monitor_wallet str_to_float w self))) =
    sessions (profit_tracking self) + 1.
Proof.
  intros Hok. destruct (monitor_wallet_effect w self) as (_ & _ & [[Hno _] | [delta ->]]).
  - rewrite Hok in Hno. discriminate.
  - reflexivity.
Qed.

(** After [n] consecutive calls that all return, the session counter is its
    value before plus [n]. *)
Lemma monitor_n_sessions worlds n self :
  (forall k, (k < n)%nat ->
     is_ok (fst (monitor_wallet str_to_float (worlds k)
                   (monitor_n str_to_float worlds k self))) = true) ->
  sessions (profit_tracking (monitor_n str_to_float worlds n self)) =
    sessions (profit_tracking self) + Z.of_nat n.
Proof.
  induction n as [|n IH]; intros Hok; [simpl; lia|].
  simpl monitor_n. rewrite monitor_wallet_ok_increments by (apply Hok; lia).
  rewrite IH by (intros k Hk; apply Hok; lia). lia.
Qed.

(** C1. [monitor_wallet] does not always return: when the token fetch
    fails, [get_token_balances] reaches its final [return], which reads the
    variable [e] of an [except] clause that is over or never ran, and the
    [UnboundLocalError] leaves [monitor_wallet]. The first part is that for
    every world whose token fetch fails; the second is the world in which
    every fetch fails. *)
Theorem monitor_wallet_raises_when_fetches_fail :
  (forall w self,
      fetched (net w MagicEdenTokens) = None ->
      monitor_wallet str_to_float w self = (Raise (UnboundLocalError "e"), self)) /\
  (forall self,
      monitor_wallet str_to_float all_fail self = (Raise (UnboundLocalError "e"), self)).
Proof.
  split.
  - exact monitor_wallet_raises_without_tokens.
  - intros self. apply monitor_wallet_raises_without_tokens. reflexivity.
Qed.

(** C2. The increment is not unconditional: [n] consecutive calls whose
    fetches all fail leave the session counter where it was, because each
    call raises before it reaches the update. *)
Theorem sessions_unchanged_when_fetches_fail :
  forall n self,
    let before := sessions (profit_tracking self) in
    let after :=
      sessions (profit_tracking (monitor_n str_to_float (fun _ => all_fail) n self)) in
    after = before /\ ((0 < n)%nat -> after <> before + Z.of_nat n).
Proof.
  intros n self. cbv zeta.
  assert (E : monitor_n str_to_float (fun _ => all_fail) n self = self).
  { induction n as [|n IH]; [reflexivity|].
    change (monitor_n str_to_float (fun _ => all_fail) (S n) self)
      with (snd (monitor_wallet str_to_float all_fail
                   (monitor_n str_to_float (fun _ => all_fail) n self))).
    rewrite IH, monitor_wallet_raises_without_tokens; reflexivity. }
  rewrite E. split; [reflexivity | lia].
Qed.

(** The transaction fetch accepts exactly the bodies that have a [len]. *)
Lemma fetched_sized r body count :
  fetched r = Some (body, count) -> py_len body = Ok count.
Proof.
  unfold fetched. destruct r as [msg | status [payload|]]; try discriminate.
  destruct (status =? 200); try discriminate.
  destruct (py_len payload) as [k|e] eqn:E; try discriminate.
  intros H. injection H as <- <-. exact E.
Qed.

(** An accepted body that is not a JSON object can be sliced, and the
    profit loop then adds the coercible amounts of its first five items. *)
Lemma detect_profit_sliceable body count clock :
  py_len body = Ok count ->
  (forall entries, body <> PDict entries) ->
  exists first5,
    py_take 5 body = Ok first5 /\
    detect_profit str_to_float
      (PDict [("status", PStr "success"); ("transactions", body);
              ("count", PInt count); ("timestamp", PStr clock)]) =
      Ok (float_sum (coercible_amounts str_to_float first5)).
Proof.
  intros Hl Hn. destruct body as [| | | |s|items|entries]; try discriminate.
  - eexists. split; [reflexivity|]. unfold detect_profit, float_sum. simpl.
    rewrite profit_loop_sum. reflexivity.
  - eexists. split; [reflexivity|]. unfold detect_profit, float_sum. simpl.
    rewrite profit_loop_sum. reflexivity.
  - destruct (Hn entries eq_refl).
Qed.

End MonitorFacts.



(* ================================================================= *)
(** ** The formula library: division by zero *)

Lemma float_truediv_ok x y :
  (y =? 0)%float = false -> float_truediv x y = Ok (x / y)%float.
Proof. unfold float_truediv. intros ->. reflexivity. Qed.

(** [principle_polarity] returns for every pair of floats: the [total == 0]
    test covers every divisor that is a zero. *)
Lemma principle_polarity_total bull bear :
  is_ok (principle_polarity bull bear) = true.
Proof.
  unfold principle_polarity. destruct ((bull + bear) =? 0)%float eqn:E; simpl.
  - reflexivity.
  - rewrite !float_truediv_ok by exact E. reflexivity.
Qed.

(** [principle_gender] returns for every pair of floats. *)
Lemma principle_gender_total masculine feminine :
  is_ok (principle_gender masculine feminine) = true.
Proof.
  unfold principle_gender. destruct ((masculine + feminine) =? 0)%float eqn:E; simpl.
  - reflexivity.
  - rewrite !float_truediv_ok by exact E. reflexivity.
Qed.

(** [principle_correspondence] returns for every pair of floats. *)
Lemma principle_correspondence_total macro micro :
  is_ok (principle_correspondence macro micro) = true.
Proof.
  unfold principle_correspondence. destruct (micro =? 0)%float eqn:E; simpl.
  - reflexivity.
  - rewrite float_truediv_ok by exact E. reflexivity.
Qed.

(** [principle_vibration] returns for every float. *)
Lemma principle_vibration_total frequency :
  is_ok (principle_vibration frequency) = true.
Proof.
  unfold principle_vibration. destruct (frequency =? 0)%float eqn:E; simpl.
  - reflexivity.
  - rewrite float_truediv_ok by exact E. reflexivity.
Qed.

(** A float that is greater than zero is not equal to zero. *)
Lemma ltb_zero_neq x : (0 <? x)%float = true -> (x =? 0)%float = false.
Proof.
  rewrite ltb_spec, eqb_spec, Prim2SF_zero.
  destruct (Prim2SF x) as [s|s| |s m e]; unfold SFltb, SFeqb; simpl;
    try discriminate; destruct s; try discriminate; reflexivity.
Qed.

(** [superposition] returns for every pair of floats: a sum above zero is
    not a zero. *)
Lemma superposition_total option_a option_b :
  is_ok (superposition option_a option_b) = true.
Proof.
  unfold superposition. destruct (0 <? option_a + option_b)%float eqn:E; simpl.
  - rewrite !float_truediv_ok by (apply ltb_zero_neq; exact E). reflexivity.
  - reflexivity.
Qed.

(** [vesica_piscis_ratio] returns for every pair of floats. *)
Lemma vesica_piscis_ratio_total value1 value2 :
  is_ok (vesica_piscis_ratio value1 value2) = true.
Proof.
  unfold vesica_piscis_ratio.
  destruct (value1 =? 0)%float eqn:E1; [reflexivity|].
  destruct (value2 =? 0)%float eqn:E2; [reflexivity|]. simpl.
  rewrite float_truediv_ok by exact E2. reflexivity.
Qed.

(** [entanglement] raises exactly when the larger price is a zero. *)
Lemma entanglement_raises_iff asset1_price asset2_price :
  entanglement asset1_price asset2_price = Raise ZeroDivisionError <->
  (float_max asset1_price asset2_price =? 0)%float = true.
Proof.
  unfold entanglement, float_truediv.
  destruct (float_max asset1_price asset2_price =? 0)%float; simpl; split;
    intros H; try reflexivity; discriminate.
Qed.

(** C5. The guard is not in every formula. [principle_polarity(0, 0)] does
    return the 50/50 split, and [principle_polarity(70, 30)] is bullish with
    70.0 and 30.0; but [entanglement] divides by [max(asset1, asset2)] and
    [calculate_magick_profit] divides by [entry] with no test before the
    division, so [entanglement(0, 0)] and a profit calculation with
    [entry = 0] raise [ZeroDivisionError], and the engine's profit list is
    left as it was. *)
Theorem division_guard_missing :
  principle_polarity 0 0 =
    Ok (PDict [("principle", PStr "polarity");
               ("bull_force", PInt 50);
               ("bear_force", PInt 50);
               ("balance_point", PInt 50);
               ("market_state", PStr "bearish")]) /\
  principle_polarity 70 30 =
    Ok (PDict [("principle", PStr "polarity");
               ("bull_force", PFloat 70);
               ("bear_force", PFloat 30);
               ("balance_point", PInt 50);
               ("market_state", PStr "bullish")]) /\
  entanglement 0 0 = Raise ZeroDivisionError /\
  (forall now exit amount self,
      calculate_magick_profit now 0 exit amount self = (Raise ZeroDivisionError, self)).
Proof.
  repeat split; reflexivity.
Qed.

(* ================================================================= *)
(** ** The formula library: minimum lengths *)

Section FlowerFacts.
Variables np_mean np_std : list float -> float.

(** Up to 19 values the segment loop [range(0, len(data) - 19, 19)] is
    empty. *)
Lemma flower_segments_none data : len data <= 19 -> flower_segments data = [].
Proof.
  intros H. unfold flower_segments, flower_starts, py_range.
  replace (Z.to_nat ((len data - 19 - 0 + 19 - 1) / 19)) with 0%nat; [reflexivity|].
  assert ((len data - 19 - 0 + 19 - 1) / 19 <= 0); [|lia].
  replace (len data - 19 - 0 + 19 - 1) with (len data - 1) by lia.
  assert (len data - 1 < 1 * 19) by lia.
  apply Z.lt_succ_r. apply Z.div_lt_upper_bound; lia.
Qed.

(** C6, as amended. Below 6 values [flower_of_life_pattern] returns the
    insufficient-data sentinel and below 2 prices [principle_rhythm] returns
    its marker. On 19 values, all equal or not, the segment loop runs zero
    times: no mean or standard deviation is computed, the [std > 0] test is
    not reached, and the harmony score is [0 / max(1, 0.0) = 0.0]. *)
Theorem minimum_length_markers :
  (forall data,
      len data < 6 ->
      flower_of_life_pattern np_mean np_std data =
        Ok (PDict [("pattern", PStr "insufficient_data")])) /\
  (forall prices,
      len prices < 2 ->
      principle_rhythm prices =
        Ok (PDict [("principle", PStr "rhythm"); ("insufficient_data", PBool true)])) /\
  (forall data,
      len data = 19 ->
      flower_segments data = [] /\
      flower_of_life_pattern np_mean np_std data =
        Ok (PDict [("pattern", PStr "flower_of_life");
                   ("harmony_score", PFloat 0);
                   ("interpretation", PStr "Sacred pattern alignment")])).
Proof.
  split; [|split].
  - intros data H. unfold flower_of_life_pattern.
    destruct (Z.ltb_spec (len data) 6); [reflexivity | lia].
  - intros prices H. unfold principle_rhythm.
    destruct (Z.ltb_spec (len prices) 2); [reflexivity | lia].
  - intros data H. split; [apply flower_segments_none; lia|].
    unfold flower_of_life_pattern.
    rewrite flower_segments_none by lia. rewrite H. reflexivity.
Qed.
End FlowerFacts.

Lemma minimum_length_markers_witness :
  flower_of_life_pattern plain_mean plain_std [1; 2; 3; 4; 5]%float =
    Ok (PDict [("pattern", PStr "insufficient_data")]) /\
  principle_rhythm [1%float] =
    Ok (PDict [("principle", PStr "rhythm"); ("insufficient_data", PBool true)]) /\
  flower_of_life_pattern plain_mean plain_std (repeat 5%float 19) =
    Ok (PDict [("pattern", PStr "flower_of_life");
               ("harmony_score", PFloat 0);
               ("interpretation", PStr "Sacred pattern alignment")]).
Proof.
  destruct (minimum_length_markers plain_mean plain_std) as (H1 & H2 & H3).
  split; [apply H1; reflexivity|]. split; [apply H2; reflexivity|].
  apply H3. reflexivity.
Defined.

(** On 19 equal values the loop visits no segment, so the [std > 0] test is
    not what keeps the division away: it is never evaluated. With one value
    more there is one segment. *)
Lemma flower_19_equal_visits_no_segment :
  flower_segments (repeat 5%float 19) = [] /\
  flower_segments (repeat 5%float 20) = [repeat 5%float 19].
Proof. split; reflexivity. Qed.

(* ================================================================= *)
(** ** The formula library: golden-ratio levels *)

Lemma res_map_all {A B : Type} (f : A -> res B) (P : B -> Prop) (xs : list A) :
  (forall x, In x xs -> exists y, f x = Ok y /\ P y) ->
  exists ys, res_map f xs = Ok ys /\ List.length ys = List.length xs /\ Forall P ys.
Proof.
  induction xs as [|x rest IH]; intros H.
  - exists []. repeat split. constructor.
  - destruct (H x (or_introl eq_refl)) as (y & Hy & Py).
    destruct IH as (ys & Hys & Hlen & Hall); [intros z Hz; apply H; right; exact Hz|].
    exists (y :: ys). simpl. rewrite Hy, Hys. simpl.
    repeat split; [congruence | constructor; assumption].
Qed.

Lemma fibonacci_exponents fib :
  In fib FIBONACCI -> exists e, int_truediv fib 10 = Ok e.
Proof.
  intros H. unfold FIBONACCI in H.
  repeat (destruct H as [<- | H]; [eexists; vm_compute; reflexivity|]).
  destruct H.
Qed.

Section GoldenRatioFacts.
Variable float_pow : float -> float -> res float.

(** What is assumed of the C library's [pow]: at the table's exponents the
    power of [PHI] is returned, and it is at least 1. *)
Hypothesis pow_phi_at_least_one :
  forall fib e,
    In fib FIBONACCI -> int_truediv fib 10 = Ok e ->
    exists p, float_pow PHI e = Ok p /\ (1 <=? p)%float = true.

(** C7. For a price above zero the list of levels has one entry per entry
    of the Fibonacci table, 16 of them, and every entry is above zero (a
    product may overflow to [+inf]; it cannot underflow to zero, each factor
    being at least 1). *)
Theorem golden_ratio_levels_positive price :
  (0 <? price)%float = true ->
  exists levels,
    golden_ratio_levels float_pow price = Ok levels /\
    List.length levels = List.length FIBONACCI /\
    List.length levels = 16%nat /\
    Forall (fun level => (0 <? level)%float = true) levels.
Proof.
  intros Hprice.
  destruct (res_map_all (golden_level float_pow price)
              (fun level => (0 <? level)%float = true) FIBONACCI)
    as (levels & Hl & Hlen & Hall).
  - intros fib Hin. destruct (fibonacci_exponents fib Hin) as (e & He).
    destruct (pow_phi_at_least_one fib e Hin He) as (p & Hp & H1).
    exists (price * p)%float. unfold golden_level. rewrite He. simpl. rewrite Hp.
    split; [reflexivity | apply float_mul_pos; assumption].
  - exists levels. repeat split; assumption.
Qed.
End GoldenRatioFacts.

Lemma table_pow_at_least_one :
  forall fib e,
    In fib FIBONACCI -> int_truediv fib 10 = Ok e ->
    exists p, table_pow PHI e = Ok p /\ (1 <=? p)%float = true.
Proof.
  intros fib e H He. unfold FIBONACCI in H.
  repeat (destruct H as [<- | H];
          [vm_compute in He; injection He as <-; eexists; split;
           [vm_compute; reflexivity | reflexivity]|]).
  destruct H.
Qed.

Lemma golden_ratio_levels_positive_witness :
  (0 <? 100)%float = true /\
  exists levels,
    golden_ratio_levels table_pow 100 = Ok levels /\
    List.length levels = List.length FIBONACCI /\
    List.length levels = 16%nat /\
    Forall (fun level => (0 <? level)%float = true) levels.
Proof.
  split; [reflexivity|].
  apply (golden_ratio_levels_positive table_pow table_pow_at_least_one 100).
  reflexivity.
Defined.

(* ================================================================= *)
(** ** [get_wallet_value] *)

(** With both fetches accepted, the value summary has its monetary fields
    at zero and the NFT fetch's count. *)
Lemma get_wallet_value_success w self tokens n nfts count :
  fetched (net w MagicEdenTokens) = Some (tokens, n) ->
  fetched (net w MagicEdenNfts) = Some (nfts, count) ->
  get_wallet_value w self =
    (Ok (PDict [("status", PStr "success");
                ("wallet", PStr (wallet_address self));
                ("value",
                 PDict [("sol_balance", PFloat 0);
                        ("token_value", PFloat 0);
                        ("nft_count", PInt count);
                        ("total_usd_value", PFloat 0);
                        ("timestamp", PStr (now w))]);
                ("timestamp", PStr (now w))]), self).
Proof.
  intros Et En. destruct (get_wallet_balance_total w self) as (b & Hb).
  unfold get_wallet_value, bind, try_except, get_self.
  rewrite get_token_balances_cases, Et, get_wallet_nfts_cases, En, Hb. reflexivity.
Qed.

(** When the token fetch or the NFT fetch is not accepted, the fetch raises
    and the outer [except] turns that into an error envelope: there is no
    value summary and no NFT count. *)
Lemma get_wallet_value_error w self :
  fetched (net w MagicEdenTokens) = None \/ fetched (net w MagicEdenNfts) = None ->
  get_wallet_value w self =
    (Ok (PDict [("status", PStr "error");
                ("error", PStr (exn_str (UnboundLocalError "e")));
                ("timestamp", PStr (now w))]), self).
Proof.
  intros H. unfold get_wallet_value, bind, try_except, get_self.
  rewrite get_token_balances_cases.
  destruct (fetched (net w MagicEdenTokens)) as [[tokens n]|]; [|reflexivity].
  destruct H as [H | H]; [discriminate|].
  rewrite get_wallet_nfts_cases, H. reflexivity.
Qed.

(** C8. The NFT count does not default to zero when the NFT fetch fails: a
    failed fetch never returns its error envelope, it raises, so
    [nfts.get('count', 0)] is not reached and [get_wallet_value] returns an
    error envelope without a value summary. The first part is that for every
    world; the second is the world whose NFT provider answers 500. *)
Theorem get_wallet_value_error_when_nfts_fail :
  (forall w self,
      fetched (net w MagicEdenNfts) = None ->
      exists result,
        get_wallet_value w self = (Ok result, self) /\
        py_get result "status" PNone = Ok (PStr "error") /\
        has_key "value" result = false) /\
  (forall self,
      get_wallet_value nfts_500 self =
        (Ok (PDict [("status", PStr "error");
                    ("error",
                     PStr "cannot access local variable 'e' where it is not associated with a value");
                    ("timestamp", PStr "2026-01-01T00:00:00")]), self)).
Proof.
  split.
  - intros w self H. eexists. split; [apply get_wallet_value_error; right; exact H|].
    split; reflexivity.
  - intros self. apply get_wallet_value_error. right. reflexivity.
Qed.

(* ================================================================= *)
(** ** The wallet across calls: the balance history, the profit state *)

Section WalletFacts.
Variable str_to_float : string -> option float.

(** What any method does to the wallet: the address and the balance history
    stay, and the profit state stays or is updated once. *)
Lemma call_effect m w self :
  let self' := snd (call str_to_float m w self) in
  wallet_address self' = wallet_address self /\
  balance_history self' = balance_history self /\
  (profit_tracking self' = profit_tracking self \/
   exists delta,
     profit_tracking self' = profit_tracking (update_profit_tracking w delta self)).
Proof.
  cbv zeta. destruct m; simpl call.
  - destruct (get_wallet_balance_total w self) as (b & ->). simpl. auto.
  - rewrite get_token_balances_cases.
    destruct (fetched (net w MagicEdenTokens)) as [[? ?]|]; simpl; auto.
  - rewrite get_transaction_history_cases.
    destruct (net w (SolscanTransactions limit)) as [msg | status [txs|]]; simpl; auto.
    destruct (status =? 200); simpl; auto.
    destruct (py_len txs); simpl; auto.
  - destruct (monitor_wallet_effect str_to_float w self) as (Ha & Hh & [[_ Hp] | Hp]);
      auto.
  - unfold track_profit, bind, lift, get_self, ret.
    destruct (int_to_float (int_max 1 (sessions (profit_tracking self)))); simpl; auto.
    destruct (float_truediv (total_profit (profit_tracking self)) a); simpl; auto.
  - rewrite get_wallet_nfts_cases.
    destruct (fetched (net w MagicEdenNfts)) as [[? ?]|]; simpl; auto.
  - destruct (fetched (net w MagicEdenTokens)) as [[tokens n]|] eqn:Et.
    + destruct (fetched (net w MagicEdenNfts)) as [[nfts count]|] eqn:En.
      * rewrite (get_wallet_value_success w self _ _ _ _ Et En). simpl. auto.
      * rewrite get_wallet_value_error by auto. simpl. auto.
    + rewrite get_wallet_value_error by auto. simpl. auto.
  - unfold get_wallet_status, bind, lift, get_self, ret.
    destruct (py_len (transactions self)); simpl; auto.
Qed.

(** The balance fetch reads the address only. *)
Lemma get_wallet_balance_history_blind w history self :
  get_wallet_balance w (with_balance_history history self) =
    (fst (get_wallet_balance w self), with_balance_history history self).
Proof.
  unfold get_wallet_balance, _get_balance_fallback. run_m.
  destruct (net w HeliusBalances) as [msg | status [data|]]; simpl;
    try destruct (status =? 200); simpl; try destruct (status =? 429); simpl;
    try reflexivity;
    destruct (net w SolscanAccount) as [msg' | status' [data'|]]; simpl;
    try destruct (status' =? 200); reflexivity.
Qed.

(** No method but [get_wallet_status] returns a value that depends on the
    balance history. *)
Lemma call_history_blind m w history self :
  m <> GetWalletStatus ->
  fst (call str_to_float m w (with_balance_history history self)) =
    fst (call str_to_float m w self).
Proof.
  intros Hm. destruct m; simpl call; try contradiction.
  - rewrite get_wallet_balance_history_blind. reflexivity.
  - rewrite !get_token_balances_cases.
    destruct (fetched (net w MagicEdenTokens)) as [[? ?]|]; reflexivity.
  - rewrite !get_transaction_history_cases.
    destruct (net w (SolscanTransactions limit)) as [msg | status [txs|]];
      try reflexivity.
    destruct (status =? 200); try reflexivity. cbv zeta.
    destruct (py_len txs); reflexivity.
  - destruct (get_wallet_balance_total w self) as (b & Hb).
    unfold monitor_wallet, bind.
    rewrite get_wallet_balance_history_blind, Hb. simpl fst.
    rewrite !get_token_balances_cases.
    destruct (fetched (net w MagicEdenTokens)) as [[tokens n]|]; [|reflexivity].
    rewrite !get_transaction_history_cases.
    destruct (net w (SolscanTransactions 10)) as [msg | status [txs|]];
      try reflexivity.
    destruct (status =? 200); try reflexivity. cbv zeta.
    destruct (py_len txs); try reflexivity. unfold lift.
    destruct (detect_profit str_to_float _); try reflexivity.
    unfold get_self, set_self, ret. simpl.
    destruct (py_get b "status" PNone); reflexivity.
  - unfold track_profit, bind, lift, get_self, ret. simpl.
    destruct (int_to_float (int_max 1 (sessions (profit_tracking self)))); simpl;
      [|reflexivity].
    destruct (float_truediv (total_profit (profit_tracking self)) a); reflexivity.
  - rewrite !get_wallet_nfts_cases.
    destruct (fetched (net w MagicEdenNfts)) as [[? ?]|]; reflexivity.
  - destruct (fetched (net w MagicEdenTokens)) as [[tokens n]|] eqn:Et.
    + destruct (fetched (net w MagicEdenNfts)) as [[nfts count]|] eqn:En.
      * rewrite !(get_wallet_value_success w _ _ _ _ _ Et En). reflexivity.
      * rewrite !get_wallet_value_error by auto. reflexivity.
    + rewrite !get_wallet_value_error by auto. reflexivity.
Qed.

(** A reachable wallet has an empty balance history, a session counter that
    is not negative, and a zero total as long as the counter is zero. *)
Lemma reachable_invariant self :
  reachable str_to_float self ->
  balance_history self = [] /\
  0 <= sessions (profit_tracking self) /\
  (sessions (profit_tracking self) = 0 ->
   total_profit (profit_tracking self) = 0%float).
Proof.
  induction 1 as [clock address | self m w _ (Hh & Hs & Ht)].
  - simpl. split; [reflexivity|]. split; [lia|]. intros _. reflexivity.
  - destruct (call_effect m w self) as (_ & Hh' & [Hp | [delta Hp]]).
    + rewrite Hh', Hp, Hh. auto.
    + rewrite Hh', Hp, Hh. simpl. split; [reflexivity|]. split; lia.
Qed.

(** C9, as amended. The balance history is not appended to: no method
    writes it, so every reachable wallet has the empty list it was
    constructed with. No method reads its contents either: only
    [get_wallet_status] mentions it, and reports its length, which is 0. *)
Theorem balance_history_never_written :
  (forall m w self,
      balance_history (snd (call str_to_float m w self)) = balance_history self) /\
  (forall self, reachable str_to_float self -> balance_history self = []) /\
  (forall m w history self,
      m <> GetWalletStatus ->
      fst (call str_to_float m w (with_balance_history history self)) =
        fst (call str_to_float m w self)) /\
  (forall w self count,
      reachable str_to_float self ->
      py_len (transactions self) = Ok count ->
      exists status,
        get_wallet_status w self = (Ok status, self) /\
        py_get status "balance_history_size" PNone = Ok (PInt 0)).
Proof.
  split; [intros m w self; apply call_effect|].
  split; [intros self H; apply (reachable_invariant self H)|].
  split; [exact call_history_blind|].
  intros w self count H Hl. destruct (reachable_invariant self H) as (Hh & _).
  unfold get_wallet_status, bind, lift, get_self, ret. rewrite Hl, Hh.
  eexists. split; reflexivity.
Qed.
End WalletFacts.

Lemma balance_history_never_written_witness :
  let self := snd (call no_parse GetWalletBalance balance_ok (__init__ "t0" WALLET_ADDRESS)) in
  reachable no_parse self /\
  balance_history self = [] /\
  fst (call no_parse MonitorWallet balance_ok (with_balance_history [PInt 1] self)) =
    fst (call no_parse MonitorWallet balance_ok self).
Proof.
  cbv zeta.
  destruct (balance_history_never_written no_parse) as (_ & H2 & H3 & _).
  assert (R : reachable no_parse
                (snd (call no_parse GetWalletBalance balance_ok
                        (__init__ "t0" WALLET_ADDRESS))))
    by (apply reach_call, reach_init).
  split; [exact R|]. split; [apply H2; exact R|].
  apply H3. discriminate.
Defined.

(** The successful balance fetch of a fresh wallet leaves the balance
    history as long as it was: empty. *)
Lemma balance_fetch_appends_nothing :
  fst (get_wallet_balance balance_ok (__init__ "t0" WALLET_ADDRESS)) =
    Ok (PDict [("status", PStr "success");
               ("wallet", PStr WALLET_ADDRESS);
               ("balance", PDict [("nativeBalance", PInt 5)]);
               ("timestamp", PStr "2026-01-01T00:00:00")]) /\
  balance_history (snd (get_wallet_balance balance_ok (__init__ "t0" WALLET_ADDRESS))) = [].
Proof. split; reflexivity. Qed.

(* ================================================================= *)
(** ** [track_profit] *)

Lemma int_max_one_positive n : 0 <= n -> 1 <= int_max 1 n.
Proof. unfold int_max. destruct (Z.ltb_spec 1 n); lia. Qed.

Section TrackProfitFacts.
Variable str_to_float : string -> option float.


(** The divisor [max(1, sessions)] of a counter that is not negative is
    not a zero, whatever else the conversion does. *)
Lemma track_profit_divisor_nonzero w self :
  0 <= sessions (profit_tracking self) ->
  fst (track_profit w self) <> Raise ZeroDivisionError.
Proof.
  intros Hs. unfold track_profit, bind, lift, get_self, ret.
  destruct (int_to_float (int_max 1 (sessions (profit_tracking self)))) as [d|e] eqn:Hd.
  - pose proof (int_max_one_positive _ Hs) as H1.
    rewrite float_truediv_ok; [discriminate|].
    apply (int_to_float_nonzero (int_max 1 (sessions (profit_tracking self)))); [lia|].
    exact Hd.
  - simpl. unfold int_to_float in Hd.
    destruct (binary_normalize prec emax _ 0 false); discriminate || congruence.
Qed.

(** The division is guarded: no reachable wallet makes [track_profit] raise
    [ZeroDivisionError]. *)
Lemma track_profit_never_divides_by_zero w self :
  reachable str_to_float self ->
  fst (track_profit w self) <> Raise ZeroDivisionError.
Proof.
  intros R. destruct (reachable_invariant str_to_float self R) as (_ & Hs & _).
  apply track_profit_divisor_nonzero. exact Hs.
Qed.

End TrackProfitFacts.

Lemma track_profit_never_divides_by_zero_witness :
  reachable no_parse (__init__ "t0" WALLET_ADDRESS) /\
  fst (track_profit all_ok (__init__ "t0" WALLET_ADDRESS)) <> Raise ZeroDivisionError.
Proof.
  split; [apply reach_init|].
  apply (track_profit_never_divides_by_zero no_parse all_ok _ (reach_init no_parse _ _)).
Defined.


(* ================================================================= *)
(** ** More on the wallet: what the fetchers return, what the methods write *)

(** The three fetchers without a fallback return a success envelope or
    raise: the error envelope their last statement builds is never
    returned, because building it reads the unbound [e]. *)
Theorem fetchers_return_success_or_raise w limit self :
  match fst (get_token_balances w self) with
  | Ok v => py_get v "status" PNone = Ok (PStr "success")
  | Raise e => e = UnboundLocalError "e"
  end /\
  match fst (get_transaction_history w limit self) with
  | Ok v => py_get v "status" PNone = Ok (PStr "success")
  | Raise e => e = UnboundLocalError "e"
  end /\
  match fst (get_wallet_nfts w self) with
  | Ok v => py_get v "status" PNone = Ok (PStr "success")
  | Raise e => e = UnboundLocalError "e"
  end.
Proof.
  rewrite get_token_balances_cases, get_transaction_history_cases, get_wallet_nfts_cases.
  split; [|split].
  - destruct (fetched (net w MagicEdenTokens)) as [[? ?]|]; reflexivity.
  - destruct (net w (SolscanTransactions limit)) as [msg | status [txs|]];
      try reflexivity.
    destruct (status =? 200); try reflexivity. cbv zeta.
    destruct (py_len txs); reflexivity.
  - destruct (fetched (net w MagicEdenNfts)) as [[? ?]|]; reflexivity.
Qed.

(** [get_wallet_value] never raises and never writes the wallet: it returns
    an envelope whose status is "success" exactly when the token fetch and
    the NFT fetch were both accepted, and "error" otherwise. The outcome of
    the balance fetch plays no part. *)
Theorem get_wallet_value_never_raises w self :
  exists v,
    get_wallet_value w self = (Ok v, self) /\
    py_get v "status" PNone =
      Ok (PStr (match fetched (net w MagicEdenTokens), fetched (net w MagicEdenNfts) with
                | Some _, Some _ => "success"
                | _, _ => "error"
                end)).
Proof.
  destruct (fetched (net w MagicEdenTokens)) as [[tokens n]|] eqn:Et.
  - destruct (fetched (net w MagicEdenNfts)) as [[nfts count]|] eqn:En.
    + rewrite (get_wallet_value_success w self _ _ _ _ Et En). eexists.
      split; reflexivity.
    + rewrite get_wallet_value_error by auto. eexists. split; reflexivity.
  - rewrite get_wallet_value_error by auto. eexists. split; reflexivity.
Qed.

Section WalletRuns.
Variable str_to_float : string -> option float.

(** Every method but [monitor_wallet] leaves the profit state alone. *)
Lemma non_monitor_keeps_profit m w self :
  m <> MonitorWallet ->
  profit_tracking (snd (call str_to_float m w self)) = profit_tracking self.
Proof.
  intros Hm. destruct m; simpl call; try contradiction.
  - destruct (get_wallet_balance_total w self) as (b & ->). reflexivity.
  - rewrite get_token_balances_cases.
    destruct (fetched (net w MagicEdenTokens)) as [[? ?]|]; reflexivity.
  - rewrite get_transaction_history_cases.
    destruct (net w (SolscanTransactions limit)) as [msg | status [txs|]];
      try reflexivity.
    destruct (status =? 200); try reflexivity. cbv zeta.
    destruct (py_len txs); reflexivity.
  - unfold track_profit, bind, lift, get_self, ret.
    destruct (int_to_float (int_max 1 (sessions (profit_tracking self)))); simpl;
      [|reflexivity].
    destruct (float_truediv (total_profit (profit_tracking self)) a); reflexivity.
  - rewrite get_wallet_nfts_cases.
    destruct (fetched (net w MagicEdenNfts)) as [[? ?]|]; reflexivity.
  - destruct (fetched (net w MagicEdenTokens)) as [[tokens n]|] eqn:Et.
    + destruct (fetched (net w MagicEdenNfts)) as [[nfts count]|] eqn:En.
      * rewrite (get_wallet_value_success w self _ _ _ _ Et En). reflexivity.
      * rewrite get_wallet_value_error by auto. reflexivity.
    + rewrite get_wallet_value_error by auto. reflexivity.
  - unfold get_wallet_status, bind, lift, get_self, ret.
    destruct (py_len (transactions self)); reflexivity.
Qed.

(** The methods other than [get_transaction_history] and [monitor_wallet]
    only read: whatever the providers answer, and whether the method
    returns or raises, the wallet after the call is the wallet before. *)
Theorem read_only_methods_keep_wallet m w self :
  read_only m = true ->
  snd (call str_to_float m w self) = self.
Proof.
  intros Hm. destruct m; simpl call; try discriminate.
  - destruct (get_wallet_balance_total w self) as (b & ->). reflexivity.
  - rewrite get_token_balances_cases.
    destruct (fetched (net w MagicEdenTokens)) as [[? ?]|]; reflexivity.
  - unfold track_profit, bind, lift, get_self, ret.
    destruct (int_to_float (int_max 1 (sessions (profit_tracking self)))); simpl;
      [|reflexivity].
    destruct (float_truediv (total_profit (profit_tracking self)) a); reflexivity.
  - rewrite get_wallet_nfts_cases.
    destruct (fetched (net w MagicEdenNfts)) as [[? ?]|]; reflexivity.
  - destruct (fetched (net w MagicEdenTokens)) as [[tokens n]|] eqn:Et.
    + destruct (fetched (net w MagicEdenNfts)) as [[nfts count]|] eqn:En.
      * rewrite (get_wallet_value_success w self _ _ _ _ Et En). reflexivity.
      * rewrite get_wallet_value_error by auto. reflexivity.
    + rewrite get_wallet_value_error by auto. reflexivity.
  - unfold get_wallet_status, bind, lift, get_self, ret.
    destruct (py_len (transactions self)); reflexivity.
Qed.

(** Over any sequence of calls, in any worlds: the account identifier and
    the balance history stay as they are, and the session counter never
    goes down and grows by at most the number of [monitor_wallet] calls in
    the sequence. *)
Theorem run_calls_invariants calls : forall self,
  let self' := run_calls str_to_float calls self in
  wallet_address self' = wallet_address self /\
  balance_history self' = balance_history self /\
  sessions (profit_tracking self)
    <= sessions (profit_tracking self')
    <= sessions (profit_tracking self) + len (filter is_monitor calls).
Proof.
  induction calls as [|[m w] rest IH]; intros self; cbv zeta.
  - simpl. unfold len. simpl. repeat split; lia.
  - unfold run_calls in *. simpl fold_left.
    specialize (IH (snd (call str_to_float m w self))). cbv zeta in IH.
    destruct IH as (Ha & Hh & Hs).
    destruct (call_effect str_to_float m w self) as (Ha' & Hh' & Hp).
    rewrite Ha, Hh, Ha', Hh'. split; [reflexivity|]. split; [reflexivity|].
    assert (Hlen : len (filter is_monitor rest) <= len (filter is_monitor ((m, w) :: rest))
                   /\ (m = MonitorWallet ->
                        len (filter is_monitor ((m, w) :: rest)) =
                          len (filter is_monitor rest) + 1)).
    { unfold len.
      destruct m; cbn [filter is_monitor fst]; cbn [List.length]; split; intros;
        try discriminate; lia. }
    destruct Hlen as (Hle & Hmon).
    destruct m;
      try (rewrite non_monitor_keeps_profit in Hs by discriminate; lia).
    specialize (Hmon eq_refl).
    destruct Hp as [Hp | [delta Hp]]; simpl call in *; rewrite Hp in Hs; simpl in Hs; lia.
Qed.

(** When a call changes the profit state, it adds one session, sets the
    last delta, adds that delta to the running total, and stamps the clock;
    otherwise the profit state is as it was. *)
Theorem monitor_wallet_accumulates w self :
  let before := profit_tracking self in
  let after := profit_tracking (snd (monitor_wallet str_to_float w self)) in
  after = before \/
  (sessions after = sessions before + 1 /\
   total_profit after = (total_profit before + last_profit after)%float /\
   timestamp after = now w).
Proof.
  cbv zeta.
  destruct (monitor_wallet_effect str_to_float w self) as (_ & _ & [[_ H] | [delta H]]).
  - left. exact H.
  - right. rewrite H. simpl. repeat split.
Qed.

(** A call can raise and still count a session: when the primary balance
    provider answers with a status other than 200 and 429, the token fetch
    succeeds and the transaction fetch succeeds with a body that is not a
    JSON object, the balance is [None]; the profit state is updated first,
    then [balance.get] raises [AttributeError]. *)
Theorem monitor_wallet_counts_before_raising w self status body tokens n txbody count :
  net w HeliusBalances = Response status body ->
  status <> 200 -> status <> 429 ->
  fetched (net w MagicEdenTokens) = Some (tokens, n) ->
  fetched (net w (SolscanTransactions 10)) = Some (txbody, count) ->
  (forall entries, txbody <> PDict entries) ->
  fst (monitor_wallet str_to_float w self) = Raise AttributeError /\
  sessions (profit_tracking (snd (monitor_wallet str_to_float w self))) =
    sessions (profit_tracking self) + 1.
Proof.
  intros Eb H200 H429 Et Ef Hn.
  destruct (monitor_wallet_after_fetches str_to_float w self _ _ _ _ Et Ef)
    as (b & profit & self' & Hb & Hp & Hs & H).
  destruct (detect_profit_sliceable str_to_float txbody count (now w)
              (fetched_sized _ _ _ Ef) Hn) as (first5 & _ & Hd).
  rewrite Hd in Hp.
  assert (b = PNone).
  { assert (Hnone : get_wallet_balance w self = (Ok PNone, self)).
    { unfold get_wallet_balance. run_m. rewrite Eb. simpl.
      destruct (Z.eqb_spec status 200); [contradiction|].
      destruct (Z.eqb_spec status 429); [contradiction|]. reflexivity. }
    congruence. }
  subst b. subst profit. cbv zeta in H. rewrite H. subst self'.
  split; reflexivity.
Qed.

(** When the transaction provider answers 200 with a JSON object, the
    fetch accepts it (an object has a [len]) and stores it, and the slice
    [[:5]] in [monitor_wallet] raises (TypeError, or KeyError from Python
    3.12 on): the call does not return and the profit state is untouched. *)
Theorem monitor_wallet_raises_on_object_payload w self tokens n entries :
  fetched (net w MagicEdenTokens) = Some (tokens, n) ->
  net w (SolscanTransactions 10) = Response 200 (Some (PDict entries)) ->
  let out := monitor_wallet str_to_float w self in
  is_ok (fst out) = false /\
  transactions (snd out) = PDict entries /\
  profit_tracking (snd out) = profit_tracking self.
Proof.
  intros Et Ex. cbv zeta.
  assert (Ef : fetched (net w (SolscanTransactions 10)) =
                 Some (PDict entries, len entries))
    by (rewrite Ex; reflexivity).
  destruct (monitor_wallet_after_fetches str_to_float w self _ _ _ _ Et Ef)
    as (b & profit & self' & Hb & Hp & Hs & H).
  simpl in Hp. subst profit. rewrite H. subst self'. repeat split.
Qed.

(** The transaction list is overwritten, not appended to, and
    [get_wallet_status] counts what the last accepted fetch stored: after a
    fetch that returned a list, the status reports that list's length,
    whatever was stored before. *)
Theorem transaction_count_after_fetch w limit self txs :
  net w (SolscanTransactions limit) = Response 200 (Some (PList txs)) ->
  let self' := snd (get_transaction_history w limit self) in
  transactions self' = PList txs /\
  forall w',
    exists status,
      get_wallet_status w' self' = (Ok status, self') /\
      py_get status "transaction_count" PNone = Ok (PInt (len txs)).
Proof.
  intros E. cbv zeta. rewrite get_transaction_history_cases, E. simpl.
  split; [reflexivity|]. intros w'. eexists. split; reflexivity.
Qed.

(** The fetch stores the parsed body before it takes its [len]: a 200 whose
    body is a JSON value without a length (a number, [true], [null]) makes
    the fetch raise and still replaces the stored transactions, and from
    then on [get_wallet_status] raises [TypeError] on [len]. *)
Theorem unsized_payload_breaks_status w limit self payload :
  net w (SolscanTransactions limit) = Response 200 (Some payload) ->
  py_len payload = Raise TypeError ->
  let out := get_transaction_history w limit self in
  fst out = Raise (UnboundLocalError "e") /\
  transactions (snd out) = payload /\
  forall w', fst (get_wallet_status w' (snd out)) = Raise TypeError.
Proof.
  intros E Hl. cbv zeta. rewrite get_transaction_history_cases, E. simpl.
  rewrite Hl. simpl. split; [reflexivity|]. split; [reflexivity|].
  intros w'. unfold get_wallet_status, bind, lift, get_self, ret. simpl.
  rewrite Hl. reflexivity.
Qed.
End WalletRuns.

Lemma read_only_methods_keep_wallet_witness :
  read_only GetWalletValue = true /\
  snd (call no_parse GetWalletValue nfts_500 (__init__ "t0" WALLET_ADDRESS)) =
    __init__ "t0" WALLET_ADDRESS.
Proof.
  split; [reflexivity|].
  apply (read_only_methods_keep_wallet no_parse GetWalletValue). reflexivity.
Defined.

Lemma monitor_wallet_counts_before_raising_witness :
  net primary_500 HeliusBalances = Response 500 None /\
  fst (monitor_wallet no_parse primary_500 (__init__ "t0" WALLET_ADDRESS)) =
    Raise AttributeError /\
  sessions (profit_tracking
              (snd (monitor_wallet no_parse primary_500 (__init__ "t0" WALLET_ADDRESS)))) =
    1.
Proof.
  split; [reflexivity|].
  apply (monitor_wallet_counts_before_raising no_parse primary_500
           (__init__ "t0" WALLET_ADDRESS) 500 None (PList []) 0 (PList []) 0);
    try reflexivity; discriminate.
Defined.

Lemma monitor_wallet_raises_on_object_payload_witness :
  let out := monitor_wallet no_parse tx_object (__init__ "t0" WALLET_ADDRESS) in
  is_ok (fst out) = false /\
  transactions (snd out) = PDict [("error", PStr "rate limit")] /\
  profit_tracking (snd out) = profit_tracking (__init__ "t0" WALLET_ADDRESS).
Proof.
  apply (monitor_wallet_raises_on_object_payload no_parse tx_object
           (__init__ "t0" WALLET_ADDRESS) (PList []) 0); reflexivity.
Defined.

Lemma transaction_count_after_fetch_witness :
  let self' := snd (get_transaction_history example_world 10
                      (__init__ "t0" WALLET_ADDRESS)) in
  transactions self' = PList example_txs /\
  forall w',
    exists status,
      get_wallet_status w' self' = (Ok status, self') /\
      py_get status "transaction_count" PNone = Ok (PInt 5).
Proof.
  apply (transaction_count_after_fetch example_world 10
           (__init__ "t0" WALLET_ADDRESS) example_txs). reflexivity.
Defined.

Lemma unsized_payload_breaks_status_witness :
  let out := get_transaction_history tx_number 10 (__init__ "t0" WALLET_ADDRESS) in
  fst out = Raise (UnboundLocalError "e") /\
  transactions (snd out) = PInt 7 /\
  forall w', fst (get_wallet_status w' (snd out)) = Raise TypeError.
Proof.
  apply (unsized_payload_breaks_status tx_number 10
           (__init__ "t0" WALLET_ADDRESS) (PInt 7)); reflexivity.
Defined.

(* ================================================================= *)
(** ** [analyze_opportunity] *)

(** [max] of a list is one of its items. *)
Lemma float_max_list_in xs top : float_max_list xs = Ok top -> In top xs.
Proof.
  destruct xs as [|x rest]; [discriminate|]. simpl. intros H. injection H as <-.
  revert x. induction rest as [|y rest IH]; intros x; simpl; [auto|].
  remember (fold_left float_max rest (float_max x y)) as r eqn:Er.
  assert (Hr : In r (float_max x y :: rest)) by (rewrite Er; apply IH).
  destruct Hr as [E | E]; [|auto].
  unfold float_max in E. destruct (x <? y)%float; auto.
Qed.

(** The levels are the price times each power, power by power. *)
Lemma golden_levels_shape float_pow (Q : float -> Prop) price :
  (forall fib e,
      In fib FIBONACCI -> int_truediv fib 10 = Ok e ->
      exists p, float_pow PHI e = Ok p /\ Q p) ->
  exists powers,
    golden_ratio_levels float_pow price = Ok (map (fun p => (price * p)%float) powers) /\
    List.length powers = 16%nat /\ Forall Q powers.
Proof.
  intros H. unfold golden_ratio_levels.
  change 16%nat with (List.length FIBONACCI).
  assert (G : forall xs, (forall x, In x xs -> In x FIBONACCI) ->
              exists powers,
                res_map (golden_level float_pow price) xs =
                  Ok (map (fun p => (price * p)%float) powers) /\
                List.length powers = List.length xs /\ Forall Q powers).
  { induction xs as [|x rest IH]; intros Hin.
    - exists []. repeat split. constructor.
    - destruct (fibonacci_exponents x (Hin x (or_introl eq_refl))) as (e & He).
      destruct (H x e (Hin x (or_introl eq_refl)) He) as (p & Hp & Qp).
      destruct IH as (ps & Hps & Hlen & Hall); [intros z Hz; apply Hin; right; exact Hz|].
      exists (p :: ps). simpl. unfold golden_level at 1. rewrite He. simpl.
      rewrite Hp. simpl. rewrite Hps. simpl.
      repeat split; [congruence | constructor; assumption]. }
  apply G. auto.
Qed.

(** A float that compares equal to zero, times a finite float that is at
    least 1, compares equal to zero. *)
Lemma float_mul_zero x y :
  (x =? 0)%float = true -> (1 <=? y)%float = true -> (y <? infinity)%float = true ->
  (x * y =? 0)%float = true.
Proof.
  intros Hx Hy Hf. rewrite eqb_spec, mul_spec, Prim2SF_zero.
  rewrite eqb_spec, Prim2SF_zero in Hx.
  rewrite ltb_spec in Hf.
  destruct (ge_one_shape y Hy) as [E | (m & e & E & _)]; rewrite E in *.
  - discriminate.
  - destruct (Prim2SF x) as [s|s| |s mx ex]; unfold SFeqb in Hx; simpl in Hx;
      try discriminate; try (destruct s; discriminate).
    destruct s; reflexivity.
Qed.

Section AnalyzeFacts.
Variable float_pow : float -> float -> res float.
Variable float_str : float -> string.

(** What is assumed of the C library's [pow], as for the levels, and that
    the powers are finite. *)
Hypothesis pow_phi_finite :
  forall fib e,
    In fib FIBONACCI -> int_truediv fib 10 = Ok e ->
    exists p, float_pow PHI e = Ok p /\
              ((1 <=? p)%float = true /\ (p <? infinity)%float = true).

(** For a price above zero [analyze_opportunity] returns: the largest level
    is above zero, so the score's division is safe. The score is the price
    over the largest level, times 100, and the ethical check is made with
    [harm_check=True] whatever the inputs, so the analysis always reads
    ALIGNED. *)
Theorem analyze_opportunity_returns clock asset price volume :
  (0 <? price)%float = true ->
  exists levels top result,
    golden_ratio_levels float_pow price = Ok levels /\
    float_max_list levels = Ok top /\
    (0 <? top)%float = true /\
    analyze_opportunity float_pow float_str clock asset price volume = Ok result /\
    py_get result "opportunity_score" PNone = Ok (PFloat (price / top * 100)) /\
    py_get result "ethical_alignment" PNone =
      Ok (ethical_alignment clock ("Trade " ++ asset ++ " at " ++ float_str price) true).
Proof.
  intros Hprice.
  destruct (golden_levels_shape float_pow
              (fun p => (1 <=? p)%float = true /\ (p <? infinity)%float = true)
              price pow_phi_finite) as (ps & Hl & Hlen & Hall).
  set (levels := map (fun p => (price * p)%float) ps) in *.
  assert (Hpos : Forall (fun level => (0 <? level)%float = true) levels).
  { unfold levels. apply Forall_map. eapply Forall_impl; [|exact Hall].
    intros p [H1 _]. apply float_mul_pos; assumption. }
  destruct levels as [|l rest] eqn:El.
  { destruct ps; [discriminate Hlen | discriminate El]. }
  set (top := fold_left float_max rest l).
  assert (Ht : float_max_list (l :: rest) = Ok top) by reflexivity.
  assert (Htop : (0 <? top)%float = true).
  { pose proof (float_max_list_in _ _ Ht) as Hin.
    rewrite Forall_forall in Hpos. apply Hpos. exact Hin. }
  exists (l :: rest), top.
  unfold analyze_opportunity. rewrite Hl. simpl res_bind.
  assert (Hv : exists v, principle_vibration volume = Ok v).
  { unfold principle_vibration. destruct (volume =? 0)%float eqn:E; simpl.
    - eexists; reflexivity.
    - rewrite float_truediv_ok by exact E. eexists; reflexivity. }
  destruct Hv as (v & ->).
  assert (Hs : exists q, superposition (price * 0x1.0cccccccccccdp+0)
                           (price * 0x1.e666666666666p-1) = Ok q).
  { unfold superposition.
    destruct (0 <? price * 0x1.0cccccccccccdp+0 + price * 0x1.e666666666666p-1)%float
      eqn:E; simpl.
    - rewrite !float_truediv_ok by (apply ltb_zero_neq; exact E). eexists; reflexivity.
    - eexists; reflexivity. }
  destruct Hs as (q & ->). simpl res_bind. fold top.
  rewrite float_truediv_ok by (apply ltb_zero_neq; exact Htop).
  eexists. repeat split; try reflexivity; assumption.
Qed.

(** For a price that is a zero [analyze_opportunity] raises: every level is
    then a zero, so is the largest, and the score divides by it. *)
Theorem analyze_opportunity_zero_price clock asset price volume :
  (price =? 0)%float = true ->
  analyze_opportunity float_pow float_str clock asset price volume =
    Raise ZeroDivisionError.
Proof.
  intros Hprice.
  destruct (golden_levels_shape float_pow
              (fun p => (1 <=? p)%float = true /\ (p <? infinity)%float = true)
              price pow_phi_finite) as (ps & Hl & Hlen & Hall).
  set (levels := map (fun p => (price * p)%float) ps) in *.
  assert (Hzero : Forall (fun level => (level =? 0)%float = true) levels).
  { unfold levels. apply Forall_map. eapply Forall_impl; [|exact Hall].
    intros p [H1 H2]. apply float_mul_zero; assumption. }
  destruct levels as [|l rest] eqn:El.
  { destruct ps; [discriminate Hlen | discriminate El]. }
  set (top := fold_left float_max rest l).
  assert (Ht : float_max_list (l :: rest) = Ok top) by reflexivity.
  assert (Htop : (top =? 0)%float = true).
  { pose proof (float_max_list_in _ _ Ht) as Hin.
    rewrite Forall_forall in Hzero. apply Hzero. exact Hin. }
  unfold analyze_opportunity. rewrite Hl. simpl res_bind.
  assert (Hv : exists v, principle_vibration volume = Ok v).
  { unfold principle_vibration. destruct (volume =? 0)%float eqn:E; simpl.
    - eexists; reflexivity.
    - rewrite float_truediv_ok by exact E. eexists; reflexivity. }
  destruct Hv as (v & ->).
  assert (Hs : exists q, superposition (price * 0x1.0cccccccccccdp+0)
                           (price * 0x1.e666666666666p-1) = Ok q).
  { unfold superposition.
    destruct (0 <? price * 0x1.0cccccccccccdp+0 + price * 0x1.e666666666666p-1)%float
      eqn:E; simpl.
    - rewrite !float_truediv_ok by (apply ltb_zero_neq; exact E). eexists; reflexivity.
    - eexists; reflexivity. }
  destruct Hs as (q & ->). simpl res_bind. fold top.
  unfold float_truediv. rewrite Htop. reflexivity.
Qed.
End AnalyzeFacts.

Lemma table_pow_finite :
  forall fib e,
    In fib FIBONACCI -> int_truediv fib 10 = Ok e ->
    exists p, table_pow PHI e = Ok p /\
              ((1 <=? p)%float = true /\ (p <? infinity)%float = true).
Proof.
  intros fib e H He. unfold FIBONACCI in H.
  repeat (destruct H as [<- | H];
          [vm_compute in He; injection He as <-; eexists; split;
           [vm_compute; reflexivity | split; reflexivity]|]).
  destruct H.
Qed.

Lemma analyze_opportunity_returns_witness :
  (0 <? 100)%float = true /\
  exists levels top result,
    golden_ratio_levels table_pow 100 = Ok levels /\
    float_max_list levels = Ok top /\
    (0 <? top)%float = true /\
    analyze_opportunity table_pow (fun _ => "100.0") "t0" "SOL" 100 5 = Ok result /\
    py_get result "opportunity_score" PNone = Ok (PFloat (100 / top * 100)) /\
    py_get result "ethical_alignment" PNone =
      Ok (ethical_alignment "t0" ("Trade " ++ "SOL" ++ " at " ++ "100.0") true).
Proof.
  split; [reflexivity|].
  apply (analyze_opportunity_returns table_pow (fun _ => "100.0") table_pow_finite
           "t0" "SOL" 100 5).
  reflexivity.
Defined.

Lemma analyze_opportunity_zero_price_witness :
  (0 =? 0)%float = true /\
  analyze_opportunity table_pow (fun _ => "0.0") "t0" "SOL" 0 5 = Raise ZeroDivisionError.
Proof.
  split; [reflexivity|].
  apply (analyze_opportunity_zero_price table_pow (fun _ => "0.0") table_pow_finite
           "t0" "SOL" 0 5).
  reflexivity.
Defined.

(* ================================================================= *)
(** ** The profit engine *)

(** [calculate_magick_profit] raises exactly when the entry price is a
    zero, and then leaves the engine as it was; otherwise it appends one
    profit, the raw profit times the multiplier, and leaves the trades
    alone. *)
Theorem calculate_magick_profit_cases clock entry exit amount self :
  let magick_profit := ((exit - entry) * amount * 0x1.199999999999ap+0)%float in
  if (entry =? 0)%float
  then calculate_magick_profit clock entry exit amount self =
         (Raise ZeroDivisionError, self)
  else
    exists result,
      calculate_magick_profit clock entry exit amount self =
        (Ok result,
         {| trades := trades self; profits := profits self ++ [magick_profit] |}) /\
      py_get result "magick_profit" PNone = Ok (PFloat magick_profit) /\
      py_get result "roi_percent" PNone =
        Ok (PFloat ((exit - entry) / entry * 100)).
Proof.
  cbv zeta. unfold calculate_magick_profit, float_truediv.
  destruct (entry =? 0)%float; [reflexivity|].
  eexists. split; [reflexivity|]. split; reflexivity.
Qed.

Lemma engine_step_counts clock c self :
  len (trades (engine_step clock c self)) =
    len (trades self) + (if is_trade c then 1 else 0) /\
  len (profits (engine_step clock c self)) =
    len (profits self) + (if is_profit c then 1 else 0).
Proof.
  destruct c as [asset amount price | entry exit amount]; simpl.
  - unfold len. rewrite length_app. simpl. lia.
  - unfold calculate_magick_profit, float_truediv.
    destruct (entry =? 0)%float; simpl; unfold len; rewrite ?length_app; simpl; lia.
Qed.

(** Over any sequence of trades and profit calculations, the engine holds
    one trade per [execute_trade_with_magick] call and one profit per
    [calculate_magick_profit] call whose entry price was not a zero: a
    calculation that raises records nothing, and neither method touches the
    other list. *)
Theorem engine_run_counts clock calls : forall self,
  len (trades (engine_run clock calls self)) =
    len (trades self) + len (filter is_trade calls) /\
  len (profits (engine_run clock calls self)) =
    len (profits self) + len (filter is_profit calls).
Proof.
  induction calls as [|c rest IH]; intros self.
  - unfold len. simpl. lia.
  - unfold engine_run in *. simpl fold_left.
    destruct (IH (engine_step clock c self)) as (Ht & Hp).
    destruct (engine_step_counts clock c self) as (Ht' & Hp').
    rewrite Ht, Hp, Ht', Hp'. unfold len. simpl filter.
    destruct (is_trade c), (is_profit c); simpl List.length; lia.
Qed.

(** [get_magick_status] never divides by zero: with no profit recorded the
    divisor is [max(1, 0) = 1] and the average is [0.0]; and below 2^1023
    recorded profits it returns, with an average and the number of
    trades. *)
Theorem get_magick_status_guarded clock self :
  get_magick_status clock self <> Raise ZeroDivisionError /\
  (profits self = [] ->
   py_get_res (get_magick_status clock self) "average_profit_per_trade" =
     Ok (PFloat 0)) /\
  (len (profits self) < 2 ^ 1023 ->
   exists average,
     py_get_res (get_magick_status clock self) "average_profit_per_trade" =
       Ok (PFloat average) /\
     py_get_res (get_magick_status clock self) "trades_executed" =
       Ok (PInt (len (trades self)))).
Proof.
  assert (Hpos : 1 <= int_max 1 (len (profits self)))
    by (apply int_max_one_positive; unfold len; lia).
  assert (Hnz : forall d, int_to_float (int_max 1 (len (profits self))) = Ok d ->
                          (d =? 0)%float = false).
  { intros d Hd. apply (int_to_float_nonzero (int_max 1 (len (profits self)))); [lia|].
    exact Hd. }
  split; [|split].
  - unfold get_magick_status.
    destruct (int_to_float (int_max 1 (len (profits self)))) as [d|e] eqn:Hd; simpl.
    + rewrite float_truediv_ok by (apply Hnz; reflexivity). discriminate.
    + unfold int_to_float in Hd.
      destruct (binary_normalize prec emax _ 0 false); discriminate || congruence.
  - intros E. unfold get_magick_status. rewrite E. reflexivity.
  - intros Hb.
    destruct (int_to_float_small (int_max 1 (len (profits self)))) as (d & Hd).
    { unfold int_max in *. destruct (1 <? len (profits self)); lia. }
    unfold get_magick_status. rewrite Hd. simpl.
    rewrite float_truediv_ok by (apply Hnz; exact Hd). eexists. split; reflexivity.
Qed.

(* ================================================================= *)
(** ** Int division, and the two sequence formulas *)

Lemma binary_round_aux_no_overflow s m e l :
  0 < m -> e <= SpecFloat.fexp prec emax (Zdigits2 m + e) -> Zdigits2 m + e <= 1023 ->
  forall s0, binary_round_aux prec emax s m e l <> S754_infinity s0.
Proof.
  intros Hm He Hd s0 Hinf.
  pose proof (binary_round_aux_finite s m e l Hm He Hd) as F.
  destruct (binary_round_aux_shape s m e l Hm) as (m1 & e1 & n1 & _ & _ & _ & E).
  rewrite E in Hinf, F.
  destruct (Z.shiftr m1 n1); try discriminate.
  destruct (e1 + n1 <=? emax - prec); try discriminate.
  injection Hinf as <-. apply F. reflexivity.
Qed.

Lemma log2_bounds a : 0 < a -> 2 ^ Z.log2 a <= a < 2 ^ (Z.log2 a + 1).
Proof.
  intros H. pose proof (Z.log2_spec a H).
  replace (Z.log2 a + 1) with (Z.succ (Z.log2 a)) by lia. lia.
Qed.

(** The quotient the division core hands to the rounding: positive, not
    above its canonical exponent, and below 2^1023 in magnitude. *)
Lemma div_core_bounds pa pb :
  Zpos pa < 2 ^ 1023 -> Zpos pb < 2 ^ 1023 ->
  exists q e' l,
    SFdiv_core_binary prec emax (Zpos pa) 0 (Zpos pb) 0 = (q, e', l) /\
    0 < q /\ e' <= SpecFloat.fexp prec emax (Zdigits2 q + e') /\ Zdigits2 q + e' <= 1023.
Proof.
  intros Ha Hb. unfold SFdiv_core_binary.
  set (a := Zpos pa) in *. set (b := Zpos pb) in *.
  assert (Pa : 0 < a) by reflexivity. assert (Pb : 0 < b) by reflexivity.
  assert (Da : Zdigits2 a = Z.log2 a + 1) by (apply digits2_log2).
  assert (Db : Zdigits2 b = Z.log2 b + 1) by (apply digits2_log2).
  rewrite Da, Db. rewrite !fexp_eq.
  pose proof (log2_bounds a Pa) as [La Ua]. pose proof (log2_bounds b Pb) as [Lb Ub].
  pose proof (Z.log2_nonneg a) as Na. pose proof (Z.log2_nonneg b) as Nb.
  assert (Hla : Z.log2 a < 1023) by (apply Z.log2_lt_pow2; lia).
  assert (Hlb : Z.log2 b < 1023) by (apply Z.log2_lt_pow2; lia).
  remember (Z.min (Z.max (Z.log2 a + 1 + 0 - (Z.log2 b + 1 + 0) - 53) (-1074)) (0 - 0))
    as e' eqn:Ee.
  remember (0 - 0 - e') as s eqn:Es.
  assert (Hs : 0 <= s) by lia.
  assert (Hm' : match s with Z.pos _ => Z.shiftl a s | 0 => a | Z.neg _ => 0 end = a * 2 ^ s).
  { destruct s as [|p|p]; [simpl; lia | apply Z.shiftl_mul_pow2; lia | lia]. }
  rewrite Hm'.
  destruct (Z.div_eucl (a * 2 ^ s) b) as [q r] eqn:Eq.
  assert (Hq : q = a * 2 ^ s / b) by (unfold Z.div; rewrite Eq; reflexivity).
  exists q, e', (new_location b r). split; [reflexivity|].
  (* the quotient between two powers of two *)
  set (k := Z.log2 a + s - (Z.log2 b + 1)).
  assert (Hk : 0 <= k) by (unfold k; lia).
  assert (Hlow : 2 ^ k <= q).
  { rewrite Hq. apply Z.div_le_lower_bound; [lia|].
    assert (b * 2 ^ k <= 2 ^ (Z.log2 b + 1) * 2 ^ k)
      by (apply Z.mul_le_mono_nonneg_r; [apply Z.pow_nonneg|]; lia).
    assert (2 ^ (Z.log2 b + 1) * 2 ^ k = 2 ^ Z.log2 a * 2 ^ s).
    { rewrite <- !Z.pow_add_r by lia. f_equal. unfold k. lia. }
    assert (2 ^ Z.log2 a * 2 ^ s <= a * 2 ^ s)
      by (apply Z.mul_le_mono_nonneg_r; [apply Z.pow_nonneg|]; lia).
    lia. }
  assert (Hup : q < 2 ^ (k + 2)).
  { rewrite Hq. apply Z.div_lt_upper_bound; [lia|].
    assert (a * 2 ^ s < 2 ^ (Z.log2 a + 1) * 2 ^ s).
    { apply Z.mul_lt_mono_pos_r; [apply Z.pow_pos_nonneg|]; lia. }
    assert (2 ^ (Z.log2 a + 1) * 2 ^ s = 2 ^ Z.log2 b * 2 ^ (k + 2)).
    { rewrite <- !Z.pow_add_r by lia. f_equal. unfold k. lia. }
    assert (2 ^ Z.log2 b * 2 ^ (k + 2) <= b * 2 ^ (k + 2))
      by (apply Z.mul_le_mono_nonneg_r; [apply Z.pow_nonneg|]; lia).
    lia. }
  assert (Pq : 0 < q) by (pose proof (Z.pow_pos_nonneg 2 k); lia).
  assert (Dq : Zdigits2 q = Z.log2 q + 1).
  { destruct q; try lia. apply digits2_log2. }
  assert (L1 : k <= Z.log2 q) by (apply Z.log2_le_pow2; lia).
  assert (L2 : Z.log2 q < k + 2) by (apply Z.log2_lt_pow2; lia).
  split; [exact Pq|]. rewrite Dq, fexp_eq. unfold k in *. lia.
Qed.

Lemma int_truediv_small a b :
  Z.abs a < 2 ^ 1023 -> b <> 0 -> Z.abs b < 2 ^ 1023 ->
  exists q, int_truediv a b = Ok q.
Proof.
  intros Ha Hb0 Hb. unfold int_truediv.
  destruct (Z.eqb_spec b 0); [contradiction|].
  assert (G : forall sa sb pa pb,
             Zpos pa < 2 ^ 1023 -> Zpos pb < 2 ^ 1023 ->
             exists q,
               match SFdiv prec emax (S754_finite sa pa 0) (S754_finite sb pb 0) with
               | S754_infinity _ => Raise OverflowError
               | x => Ok (SF2Prim x)
               end = Ok q).
  { intros sa sb pa pb Pa Pb. unfold SFdiv.
    destruct (div_core_bounds pa pb Pa Pb) as (q & e' & l & -> & Hq & He & Hd).
    pose proof (binary_round_aux_no_overflow (xorb sa sb) q e' l Hq He Hd) as F.
    destruct (binary_round_aux prec emax (xorb sa sb) q e' l) eqn:E;
      try (eexists; reflexivity).
    destruct (F s eq_refl). }
  destruct a as [|pa|pa], b as [|pb|pb]; try lia; simpl Z2SF;
    try (eexists; reflexivity); apply G; lia.
Qed.

(** A float above 1 is not a zero. *)
Lemma gt_one_nonzero r : (1 <? r)%float = true -> (r =? 0)%float = false.
Proof.
  rewrite ltb_spec, eqb_spec, Prim2SF_one, Prim2SF_zero.
  destruct (Prim2SF r) as [s|s| |s m e]; unfold SFltb, SFeqb; simpl;
    try discriminate; destruct s; try discriminate; reflexivity.
Qed.

Lemma float_max_one_nonzero r : (float_max 1 r =? 0)%float = false.
Proof.
  unfold float_max. destruct (1 <? r)%float eqn:E; [apply gt_one_nonzero; exact E|].
  reflexivity.
Qed.

(** A change is not both above and below zero. *)
Lemma up_is_not_down c : (0 <? c)%float = true -> (c <? 0)%float = false.
Proof.
  intros H. rewrite ltb_spec, Prim2SF_zero.
  destruct (gt_zero_shape c H) as [-> | (m & e & -> & _)]; reflexivity.
Qed.

Lemma count_if_exclusive {A : Type} (p q : A -> bool) (xs : list A) :
  (forall x, p x = true -> q x = false) ->
  0 <= count_if p xs /\ 0 <= count_if q xs /\
  count_if p xs + count_if q xs <= len xs.
Proof.
  intros H. unfold count_if, len. induction xs as [|x rest IH]; simpl; [lia|].
  specialize (H x). destruct (p x), (q x); simpl List.length;
    try (specialize (H eq_refl); discriminate); lia.
Qed.

Lemma np_diff_length prices : len (np_diff prices) = Z.max 0 (len prices - 1).
Proof.
  unfold len. induction prices as [|a [|b rest] IH]; try reflexivity.
  change (np_diff (a :: b :: rest)) with ((b - a)%float :: np_diff (b :: rest)).
  simpl List.length in *. lia.
Qed.

(** [principle_rhythm] returns for every list of prices (shorter than
    2^1023): the divisor [max(1, downs)] is at least 1. From two prices on,
    the movements it reports are counts of the [len - 1] changes: none is
    negative and together they are at most [len(prices) - 1], the rest being
    the changes that are zero or NaN. *)
Theorem principle_rhythm_returns prices :
  len prices < 2 ^ 1023 ->
  exists result,
    principle_rhythm prices = Ok result /\
    (2 <= len prices ->
     exists ups downs,
       py_get result "up_movements" PNone = Ok (PInt ups) /\
       py_get result "down_movements" PNone = Ok (PInt downs) /\
       0 <= ups /\ 0 <= downs /\ ups + downs <= len prices - 1).
Proof.
  intros Hb. unfold principle_rhythm.
  destruct (Z.ltb_spec (len prices) 2) as [Hl | Hl].
  { eexists. split; [reflexivity | lia]. }
  destruct (count_if_exclusive (fun c => (0 <? c)%float) (fun c => (c <? 0)%float)
              (np_diff prices) up_is_not_down) as (Hu & Hd & Hs).
  rewrite np_diff_length in Hs.
  set (ups := count_if (fun c => (0 <? c)%float) (np_diff prices)) in *.
  set (downs := count_if (fun c => (c <? 0)%float) (np_diff prices)) in *.
  assert (Hm : 1 <= int_max 1 downs <= Z.max 1 downs)
    by (unfold int_max; destruct (Z.ltb_spec 1 downs); lia).
  destruct (int_truediv_small ups (int_max 1 downs)) as (q & ->); try lia.
  eexists. split; [reflexivity|]. intros _. exists ups, downs.
  repeat split; try reflexivity; lia.
Qed.

Lemma principle_rhythm_returns_witness :
  len [1; 3; 2; 2]%float < 2 ^ 1023 /\
  principle_rhythm [1; 3; 2; 2]%float =
    Ok (PDict [("principle", PStr "rhythm");
               ("up_movements", PInt 1);
               ("down_movements", PInt 1);
               ("cycle_ratio", PFloat 1);
               ("rhythm", PStr "Market oscillates between up and down")]).
Proof.
  split; [reflexivity|].
  destruct (principle_rhythm_returns [1; 3; 2; 2]%float eq_refl) as (result & H & _).
  rewrite H. vm_compute in H. injection H as <-. reflexivity.
Defined.

Lemma firstn_add_skipn {A : Type} (a b : nat) : forall xs : list A,
  firstn (a + b) xs = (firstn a xs ++ firstn b (skipn a xs))%list.
Proof.
  induction a as [|a IH]; intros xs; [reflexivity|].
  destruct xs as [|x rest]; simpl.
  - rewrite firstn_nil. reflexivity.
  - rewrite IH. reflexivity.
Qed.

(** The segments as groups of 19 counted in [nat]. *)
Lemma flower_segments_groups data :
  flower_segments data =
    map (fun j => firstn 19 (skipn (19 * j) data))
        (seq 0 (Z.to_nat ((len data - 1) / 19))).
Proof.
  unfold flower_segments, flower_starts, py_range. rewrite map_map.
  replace (len data - 19 - 0 + 19 - 1) with (len data - 1) by lia.
  apply map_ext. intros j. unfold slice. f_equal; [|f_equal]; lia.
Qed.

Section FlowerMore.
Variables np_mean np_std : list float -> float.

(** The segment loop analyses consecutive full groups of 19 values from
    the start of the data and never reaches the end: from 19 values on,
    between 1 and 19 trailing values are left out (a whole group when the
    length is a multiple of 19). *)
Theorem flower_segments_cover data :
  let segments := flower_segments data in
  let k := Z.of_nat (List.length segments) in
  Forall (fun segment => List.length segment = 19%nat) segments /\
  List.concat segments = firstn (Z.to_nat (19 * k)) data /\
  (19 <= len data -> 19 * k < len data <= 19 * k + 19).
Proof.
  cbv zeta. rewrite flower_segments_groups, length_map, length_seq.
  set (K := Z.to_nat ((len data - 1) / 19)).
  assert (HK : (K = 0)%nat \/ (19 * K < List.length data)%nat).
  { unfold K, len. destruct (List.length data) as [|n]; [left; reflexivity|].
    right. assert (0 <= (Z.of_nat (S n) - 1) / 19) by (apply Z.div_pos; lia).
    pose proof (Z.mul_div_le (Z.of_nat (S n) - 1) 19 ltac:(lia)). lia. }
  split; [|split].
  - apply Forall_forall. intros segment Hin. apply in_map_iff in Hin.
    destruct Hin as (j & <- & Hj). apply in_seq in Hj.
    rewrite length_firstn, length_skipn. lia.
  - replace (Z.to_nat (19 * Z.of_nat K)) with (19 * K)%nat by lia.
    assert (G : forall n, (19 * n <= List.length data)%nat ->
                List.concat (map (fun j => firstn 19 (skipn (19 * j) data)) (seq 0 n)) =
                  firstn (19 * n) data).
    { induction n as [|n IH]; intros Hn; [reflexivity|].
      rewrite seq_S, map_app, concat_app, IH by lia. simpl map. simpl List.concat.
      rewrite app_nil_r. replace (19 * S n)%nat with (19 * n + 19)%nat by lia.
      rewrite firstn_add_skipn. reflexivity. }
    apply G. lia.
  - intros Hl. unfold K, len in *.
    assert (0 <= (Z.of_nat (List.length data) - 1) / 19) by (apply Z.div_pos; lia).
    pose proof (Z.mul_div_le (Z.of_nat (List.length data) - 1) 19 ltac:(lia)).
    pose proof (Z.mul_succ_div_gt (Z.of_nat (List.length data) - 1) 19 ltac:(lia)).
    lia.
Qed.

(** [flower_of_life_pattern] returns for every list of data (shorter than
    2^1023) and whatever numpy's mean and standard deviation are: the
    divisor [max(1, (len - 19) / 19)] is never a zero. *)
Theorem flower_of_life_pattern_returns data :
  len data < 2 ^ 1023 ->
  exists result,
    flower_of_life_pattern np_mean np_std data = Ok result /\
    (6 <= len data ->
     exists score, py_get result "harmony_score" PNone = Ok (PFloat score)).
Proof.
  intros Hb. unfold flower_of_life_pattern.
  destruct (Z.ltb_spec (len data) 6) as [Hl | Hl].
  { eexists. split; [reflexivity | lia]. }
  assert (0 <= len data) by (unfold len; lia).
  destruct (int_truediv_small (len data - 19) 19) as (ratio & ->); try lia.
  simpl res_bind. rewrite float_truediv_ok by apply float_max_one_nonzero.
  eexists. split; [reflexivity|]. intros _. eexists. reflexivity.
Qed.
End FlowerMore.

Lemma flower_of_life_pattern_returns_witness :
  len (repeat 5%float 40) < 2 ^ 1023 /\
  exists result,
    flower_of_life_pattern plain_mean plain_std (repeat 5%float 40) = Ok result /\
    (6 <= len (repeat 5%float 40) ->
     exists score, py_get result "harmony_score" PNone = Ok (PFloat score)).
Proof.
  split; [reflexivity|].
  apply (flower_of_life_pattern_returns plain_mean plain_std (repeat 5%float 40)).
  reflexivity.
Defined.

Lemma get_magick_status_guarded_witness :
  get_magick_status "t0" new_engine <> Raise ZeroDivisionError /\
  py_get_res (get_magick_status "t0" new_engine) "average_profit_per_trade" =
    Ok (PFloat 0).
Proof.
  destruct (get_magick_status_guarded "t0" new_engine) as (H1 & H2 & _).
  split; [exact H1 | apply H2; reflexivity].
Defined.
